(** * LifeLens sentiment service: the handlers of [services/sentiment/app/main.py]

    A shallow embedding of the FastAPI handlers [health_check],
    [analyze_sentiment] and [analyze_sentiment_batch], and of the label
    remapping they perform on the model's raw prediction.

    - A Python [str] is a sequence of Unicode code points: [len] counts code
      points and slices cut between them, so a text is a list of code points.
    - The [scores] dictionary is a finite map keyed by the class name.
    - The module-level handle [sentiment_pipeline] ([None] when loading the
      model failed) is passed to the handlers explicitly.
    - The external model is a function from the text to either the list of
      predictions it returns or the exception it raises.
    - The handlers never inspect the confidence beyond [1 - score] and
      [score < 0.6], so they are written once over the interface [PyFloat]
      and run on binary64 floats, the arithmetic of the service, and on
      exact rationals. A statement is made on binary64 unless it says "in
      exact arithmetic". *)

From Stdlib Require Import QArith Lqa Lia List NArith Floats.
From stdpp Require Import gmap strings list fin_maps.

Set Warnings "-inexact-float,-clear-no-such-hyp".
Set Default Proof Using "Type".

Open Scope string_scope.

(** ** Numbers *)

(** What the handlers ask of a confidence value: the literals [0.0], [1] and
    [0.6], subtraction and the strict comparison. *)
Class PyFloat (F : Type) := {
  f0_0 : F;
  f1 : F;
  f0_6 : F;
  fsub : F → F → F;
  flt : F → F → bool
}.

(** [x < y] on rationals, decided by cross multiplication. *)
Definition Qltb (x y : Q) : bool :=
  (Qnum x * Zpos (Qden y) <? Qnum y * Zpos (Qden x))%Z.

(** Exact arithmetic. *)
#[export] Instance exact : PyFloat Q :=
  {| f0_0 := 0%Q; f1 := 1%Q; f0_6 := 0.6%Q; fsub := Qminus; flt := Qltb |}.

(** IEEE 754 binary64, the arithmetic of a Python [float]. *)
#[export] Instance binary64 : PyFloat float :=
  {| f0_0 := 0%float; f1 := 1%float; f0_6 := 0.6%float;
     fsub := PrimFloat.sub; flt := PrimFloat.ltb |}.

(** ** Text *)

(** A Unicode code point. *)
Definition char := N.

(** A Python [str]. *)
Definition str := list char.

(** The code points of an ASCII literal. *)
Definition str_of (s : string) : str :=
  map (λ a, Ascii.N_of_ascii a) (String.list_ascii_of_string s).

(** [str.isspace] on one code point: the characters CPython's
    [_PyUnicode_IsWhitespace] accepts, which are those [str.strip()]
    removes. *)
Definition isspace (c : char) : bool :=
  ((0x09 <=? c) && (c <=? 0x0D) || (0x1C <=? c) && (c <=? 0x20)
   || (c =? 0x85) || (c =? 0xA0) || (c =? 0x1680)
   || (0x2000 <=? c) && (c <=? 0x200A)
   || (c =? 0x2028) || (c =? 0x2029) || (c =? 0x202F) || (c =? 0x205F)
   || (c =? 0x3000))%N.

Section Strip.
Context {A : Type} (drop_it : A → bool).

(** Drop the longest prefix of characters to strip. *)
Fixpoint lstrip_by (s : list A) : list A :=
  match s with
  | [] => []
  | c :: s' => if drop_it c then lstrip_by s' else s
  end.

(** Drop the longest suffix of characters to strip. *)
Definition rstrip_by (s : list A) : list A := rev (lstrip_by (rev s)).

Definition strip_by (s : list A) : list A := rstrip_by (lstrip_by s).

End Strip.

(** [text.strip()] *)
Definition strip (text : str) : str := strip_by isspace text.

(** Truth value of a sequence: non-empty. *)
Definition truthy {A} (l : list A) : bool :=
  match l with [] => false | _ => true end.

(** ** Exceptions and responses *)

(** A raised Python exception, named by its class: an instance of
    [Exception], which [except Exception] catches, or of a class that
    derives from [BaseException] only ([KeyboardInterrupt], [SystemExit],
    [GeneratorExit], [asyncio.CancelledError]), which it does not catch. *)
Inductive exception : Type :=
  | Exception (name : string)
  | BaseException (name : string).

(** The outcome of a computation that may raise a Python exception. *)
Inductive Exc (A : Type) : Type :=
  | Val (a : A)
  | Exn (e : exception).
Arguments Val {A} a.
Arguments Exn {A} e.

#[export] Instance Exc_ret : MRet Exc := λ A a, Val a.
#[export] Instance Exc_bind : MBind Exc := λ A B k m,
  match m with
  | Val a => k a
  | Exn e => Exn e
  end.

(** [fastapi.HTTPException(status_code=..., detail=...)] *)
Record HTTPException := { status_code : nat; detail : string }.

(** What a handler hands back to the framework: the body it returns or the
    [HTTPException] it raises; or it builds no response at all, because an
    exception it does not catch escapes from it. *)
Inductive Response (A : Type) : Type :=
  | Return (body : A)
  | Raise (e : HTTPException)
  | Escape (e : exception).
Arguments Return {A} body.
Arguments Raise {A} e.
Arguments Escape {A} e.

(** The status line FastAPI sends: 200 for a returned body (no route sets
    another [status_code]), the exception's code otherwise. When an
    exception escapes, the handler has chosen no status: written 0. *)
Definition http_status {A} (r : Response A) : nat :=
  match r with
  | Return _ => 200
  | Raise e => status_code e
  | Escape _ => 0
  end.

(** [try: body  except Exception as e: handler]; a value leaves the block
    through the block's [return], an instance of [Exception] through the
    handler, and any other exception is not caught. *)
Definition try_except {A} (body : Exc A) (handler : exception → Response A)
  : Response A :=
  match body with
  | Val a => Return a
  | Exn (Exception name) => handler (Exception name)
  | Exn (BaseException name) => Escape (BaseException name)
  end.

(** [l[0]] *)
Definition first_item {A} (l : list A) : Exc A :=
  match l with
  | x :: _ => Val x
  | [] => Exn (Exception "IndexError")
  end.

(** ** Data model *)

(** One element of the list the model returns: [{'label': ..., 'score': ...}]. *)
Record Prediction (F : Type) := { raw_label : string; raw_score : F }.
Arguments raw_label {F} _.
Arguments raw_score {F} _.

(** The loaded [transformers] pipeline, called on a text. An object of that
    class is true in a condition; only [None] is not. *)
Definition Pipeline (F : Type) : Type := str → Exc (list (Prediction F)).

Record SentimentRequest := { text : str }.

Record SentimentResponse (F : Type) :=
  { label : string; score : F; scores : gmap string F }.
Arguments label {F} _.
Arguments score {F} _.
Arguments scores {F} _.

Record BatchSentimentRequest := { texts : list str }.

(** One dictionary appended to [results] by the batch handler, with keys
    ['text'], ['label'], ['score'] and ['scores']. *)
Record BatchItem (F : Type) :=
  { item_text : str; item_label : string; item_score : F;
    item_scores : gmap string F }.
Arguments item_text {F} _.
Arguments item_label {F} _.
Arguments item_score {F} _.
Arguments item_scores {F} _.

(** The dictionary the batch handler returns. *)
Record BatchResponse (F : Type) :=
  { results : list (BatchItem F); total : nat }.
Arguments results {F} _.
Arguments total {F} _.

(** The dictionary [health_check] returns. *)
Record Health := { status : string; model_loaded : bool }.

(** The dictionary [get_model_info] returns. *)
Record ModelInfo :=
  { model_name : string; model_type : string; labels : list string;
    max_length : nat; loaded : bool }.

(** ** Handlers *)

Section Handlers.
Context {F : Type} `{!PyFloat F}.

(** The block shared by both POST handlers (lines 79-97, repeated at
    133-150): the model's class and confidence become the reported label
    and the [scores] dictionary. *)
Definition remap (result : Prediction F) : string * gmap string F :=
  let '(label, scores) :=
    if String.eqb (raw_label result) "POSITIVE" then
      ("positive",
       ({[ "positive" := raw_score result;
           "negative" := fsub f1 (raw_score result);
           "neutral" := f0_0 ]} : gmap string F))
    else
      ("negative",
       ({[ "positive" := fsub f1 (raw_score result);
           "negative" := raw_score result;
           "neutral" := f0_0 ]} : gmap string F)) in
  if flt (raw_score result) f0_6 then
    ("neutral", <["neutral" := fsub f1 (raw_score result)]> scores)
  else (label, scores).

(** [GET /health] *)
Definition health_check (sentiment_pipeline : option (Pipeline F))
  : Response Health :=
  Return {| status := "healthy";
            model_loaded := bool_decide (sentiment_pipeline ≠ None) |}.

(** [POST /analyze] *)
Definition analyze_sentiment (sentiment_pipeline : option (Pipeline F))
    (request : SentimentRequest) : Response (SentimentResponse F) :=
  match sentiment_pipeline with
  | None => Raise {| status_code := 503; detail := "Model not loaded" |}
  | Some pipeline =>
    if negb (truthy (text request))
       || (length (strip (text request)) =? 0)%nat
    then Raise {| status_code := 400; detail := "Text cannot be empty" |}
    else
      try_except
        (let text := take 512 (text request) in
         results ← pipeline text;
         result ← first_item results;
         let '(label, scores) := remap result in
         mret {| label := label; score := raw_score result;
                 scores := scores |})
        (λ e, Raise {| status_code := 500;
                       detail := "Failed to analyze sentiment" |})
  end.

(** The [for text in request.texts] loop; [results] is the list built so
    far. *)
Fixpoint batch_loop (pipeline : Pipeline F) (texts : list str)
    (results : list (BatchItem F)) : Exc (list (BatchItem F)) :=
  match texts with
  | [] => mret results
  | text :: texts' =>
    if truthy text && (0 <? length (strip text))%nat then
      let text_truncated := take 512 text in
      sentiment_results ← pipeline text_truncated;
      result ← first_item sentiment_results;
      let '(label, scores) := remap result in
      batch_loop pipeline texts'
        (results ++
         [{| item_text :=
               if (100 <? length text)%nat
               then (take 100 text ++ str_of "...")%list else text;
             item_label := label;
             item_score := raw_score result;
             item_scores := scores |}])%list
    else batch_loop pipeline texts' results
  end.

(** [POST /analyze/batch] *)
Definition analyze_sentiment_batch (sentiment_pipeline : option (Pipeline F))
    (request : BatchSentimentRequest) : Response (BatchResponse F) :=
  match sentiment_pipeline with
  | None => Raise {| status_code := 503; detail := "Model not loaded" |}
  | Some pipeline =>
    if negb (truthy (texts request)) || (length (texts request) =? 0)%nat
    then Raise {| status_code := 400; detail := "No texts provided" |}
    else if (100 <? length (texts request))%nat
    then Raise {| status_code := 400;
                  detail := "Maximum 100 texts per batch" |}
    else
      try_except
        (results ← batch_loop pipeline (texts request) [];
         mret {| results := results; total := length results |})
        (λ e, Raise {| status_code := 500;
                       detail := "Failed to analyze sentiments" |})
  end.

(** [GET /model/info] *)
Definition get_model_info (sentiment_pipeline : option (Pipeline F))
  : Response ModelInfo :=
  Return {| model_name := "distilbert-base-uncased-finetuned-sst-2-english";
            model_type := "sentiment-analysis";
            labels := ["positive"; "negative"; "neutral"];
            max_length := 512;
            loaded := bool_decide (sentiment_pipeline ≠ None) |}.

(** The module-level block that binds [sentiment_pipeline] (lines 30-39):
    the constructor [pipeline(...)] either returns the model or raises. An
    instance of [Exception] is caught and leaves the handle [None]; any
    other exception is not caught and ends the import, so that no handle is
    bound. *)
Definition sentiment_pipeline_init (constructed : Exc (Pipeline F))
  : Exc (option (Pipeline F)) :=
  match constructed with
  | Val pipeline => Val (Some pipeline)
  | Exn (Exception name) => Val None
  | Exn (BaseException name) => Exn (BaseException name)
  end.

End Handlers.

(** ** The spec's vocabulary *)

(** "Empty or whitespace-only": no character, or none but whitespace. *)
Definition blank (t : str) : bool :=
  match t with
  | [] => true
  | _ => forallb isspace t
  end.

(** The text echoed back for a batch input: cut to 100 characters and marked
    with three dots when it is longer. *)
Definition echoed (t : str) : str :=
  if (100 <? length t)%nat then (take 100 t ++ str_of "...")%list else t.

(** The class name reported for a raw class by steps 1 and 2. *)
Definition class_name (rawLabel : string) : string :=
  if String.eqb rawLabel "POSITIVE" then "positive" else "negative".

(** The class that was not predicted, by reported label. *)
Definition other_class (label : string) : string :=
  if String.eqb label "positive" then "negative" else "positive".

Section Vocabulary.
Context {F : Type} `{!PyFloat F}.

(** The dictionary built by steps 1 and 2, before the threshold is looked
    at. *)
Definition class_scores (rawLabel : string) (c : F) : gmap string F :=
  if String.eqb rawLabel "POSITIVE"
  then {[ "positive" := c; "negative" := fsub f1 c; "neutral" := f0_0 ]}
  else {[ "positive" := fsub f1 c; "negative" := c; "neutral" := f0_0 ]}.

(** The entry a batch response holds for the input text [t]: the model's
    first prediction on the first 512 characters of [t], remapped. *)
Definition item_for (p : Pipeline F) (t : str) (item : BatchItem F) : Prop :=
  ∃ pred rest,
    p (take 512 t) = Val (pred :: rest) ∧
    item = {| item_text := echoed t;
              item_label := (remap pred).1;
              item_score := raw_score pred;
              item_scores := (remap pred).2 |}.

End Vocabulary.

(** The model answers for the text [t]: called on the first 512 characters
    of [t], it returns a list that holds at least one prediction. *)
Definition answers {F : Type} (p : Pipeline F) (t : str) : Prop :=
  ∃ pred rest, p (take 512 t) = Val (pred :: rest).

(** The exception the try block of a handler meets on the text [t], if any:
    the one the model call raises, or the [IndexError] of [results[0]] when
    the model returns no prediction. *)
Definition call_error {F : Type} (p : Pipeline F) (t : str)
  : option exception :=
  match p (take 512 t) with
  | Val [] => Some (Exception "IndexError")
  | Val (_ :: _) => None
  | Exn e => Some e
  end.

(** [t] is the first text of [ts] the loop does not get past: it is not
    blank, the try block meets [e] on it, and the model answers for every
    non-blank text before it. *)
Definition stops_at {F : Type} (p : Pipeline F) (ts : list str) (t : str)
    (e : exception) : Prop :=
  ∃ before after,
    ts = (before ++ t :: after)%list ∧
    (∀ t', t' ∈ before → blank t' = false → answers p t') ∧
    blank t = false ∧ call_error p t = Some e.

(** The answer to one text, read as the part of a batch entry that is not
    the echo. *)
Definition same_analysis {F : Type} (r : Response (SentimentResponse F))
    (item : BatchItem F) : Prop :=
  r = Return {| label := item_label item; score := item_score item;
                scores := item_scores item |}.

(** Stand-in models for concrete runs. *)
Definition confident_model : Pipeline Q :=
  λ _, Val [{| raw_label := "POSITIVE"; raw_score := 0.95%Q |}].

Definition hesitant_model : Pipeline Q :=
  λ _, Val [{| raw_label := "NEGATIVE"; raw_score := 0.55%Q |}].

(** Stand-in models on binary64 confidences. *)
Definition hesitant_binary64_model : Pipeline float :=
  λ _, Val [{| raw_label := "NEGATIVE"; raw_score := 0.55%float |}].

Definition confident_binary64_model : Pipeline float :=
  λ _, Val [{| raw_label := "POSITIVE"; raw_score := 0.95%float |}].

(** A model that fails on every text that starts with "x". *)
Definition picky_model : Pipeline Q :=
  λ t, match t with
       | 120%N :: _ => Exn (Exception "RuntimeError")
       | _ => Val [{| raw_label := "POSITIVE"; raw_score := 0.95%Q |}]
       end.

(** * Facts *)

(** ** Comparisons *)

Lemma Qltb_lt (x y : Q) : Qltb x y = true ↔ (x < y)%Q.
Proof. unfold Qltb, Qlt. apply Z.ltb_lt. Qed.

Lemma Qltb_ge (x y : Q) : Qltb x y = false ↔ (y <= x)%Q.
Proof. unfold Qltb, Qle. apply Z.ltb_ge. Qed.

(** The handlers' test [score < 0.6] in exact arithmetic. *)
Lemma exact_below_threshold (c : Q) : flt c f0_6 = true ↔ (c < 0.6)%Q.
Proof. apply Qltb_lt. Qed.

Lemma exact_reaches_threshold (c : Q) : flt c f0_6 = false ↔ (0.6 <= c)%Q.
Proof. apply Qltb_ge. Qed.

(** Swapping the arguments of the IEEE comparison swaps its result. *)
Lemma SFcompare_antisym (x y : spec_float) :
  SFcompare y x = option_map CompOpp (SFcompare x y).
Proof.
  destruct x as [sx|sx| |sx mx ex], y as [sy|sy| |sy my ey]; simpl;
    try reflexivity;
    try (destruct sx; reflexivity); try (destruct sy; reflexivity);
    try (destruct sx, sy; reflexivity).
  f_equal. destruct sx, sy; try reflexivity;
    rewrite (Z.compare_antisym ey ex);
    destruct (ey ?= ex)%Z; simpl; try reflexivity;
    rewrite (Pos.compare_cont_antisym mx my Eq); reflexivity.
Qed.

(** The same test on binary64: a float that compares at least the float
    [0.6] fails it (a NaN fails it too, and compares with nothing). *)
Lemma binary64_reaches_threshold (c : float) :
  (0.6 <=? c)%float = true → flt c f0_6 = false.
Proof.
  simpl. rewrite leb_spec, ltb_spec. unfold SFleb, SFltb.
  rewrite (SFcompare_antisym (Prim2SF 0.6) (Prim2SF c)).
  destruct (SFcompare (Prim2SF 0.6) (Prim2SF c)) as [[]|]; simpl; congruence.
Qed.

(** ** Stripping *)

Section StripFacts.
Context {A : Type} (P : A → bool).

Lemma lstrip_by_head (s : list A) c s' :
  lstrip_by P s = c :: s' → P c = false.
Proof.
  induction s as [|a s IH]; simpl; [discriminate|].
  destruct (P a) eqn:Ha; [exact IH|].
  intros [= <- _]. exact Ha.
Qed.

Lemma lstrip_by_nil (s : list A) :
  lstrip_by P s = [] ↔ forallb P s = true.
Proof.
  induction s as [|a s IH]; simpl; [tauto|].
  destruct (P a); simpl; [exact IH|].
  split; discriminate.
Qed.

Lemma forallb_rev (s : list A) : forallb P (rev s) = forallb P s.
Proof.
  induction s as [|a s IH]; simpl; [reflexivity|].
  rewrite forallb_app, IH. simpl.
  rewrite andb_true_r. apply andb_comm.
Qed.

Lemma rstrip_by_nil (s : list A) :
  rstrip_by P s = [] ↔ forallb P s = true.
Proof.
  unfold rstrip_by. rewrite <- forallb_rev, <- lstrip_by_nil.
  split; intros E.
  - apply (f_equal (@rev A)) in E. rewrite rev_involutive in E. exact E.
  - rewrite E. reflexivity.
Qed.

(** Stripping leaves nothing exactly when every character is stripped. *)
Lemma strip_by_nil (s : list A) :
  strip_by P s = [] ↔ forallb P s = true.
Proof.
  unfold strip_by. rewrite rstrip_by_nil. split; intros E.
  - apply lstrip_by_nil.
    destruct (lstrip_by P s) as [|c s'] eqn:Es; [reflexivity|].
    apply lstrip_by_head in Es. simpl in E. rewrite Es in E. discriminate.
  - apply lstrip_by_nil in E. rewrite E. reflexivity.
Qed.

End StripFacts.

Lemma blank_forallb (t : str) : blank t = forallb isspace t.
Proof. destruct t; reflexivity. Qed.

Lemma strip_length_0 (t : str) :
  (length (strip t) =? 0)%nat = forallb isspace t.
Proof.
  apply eq_true_iff_eq. rewrite Nat.eqb_eq, length_zero_iff_nil.
  apply strip_by_nil.
Qed.

(** The guard of [analyze_sentiment] fires exactly on blank texts. *)
Lemma rejected_blank (t : str) :
  negb (truthy t) || (length (strip t) =? 0)%nat = blank t.
Proof.
  rewrite strip_length_0, blank_forallb.
  destruct t; reflexivity.
Qed.

(** The guard of the batch loop lets exactly the non-blank texts through. *)
Lemma kept_not_blank (t : str) :
  truthy t && (0 <? length (strip t))%nat = negb (blank t).
Proof.
  rewrite <- rejected_blank.
  destruct t as [|c t]; [reflexivity|]. simpl.
  destruct (length (strip (c :: t))); reflexivity.
Qed.

(** ** The remapping block *)

Lemma class_name_positive rawLabel :
  class_name rawLabel = "positive" ↔ rawLabel = "POSITIVE".
Proof.
  unfold class_name. destruct (String.eqb_spec rawLabel "POSITIVE").
  - tauto.
  - split; [discriminate | contradiction].
Qed.

Lemma class_name_negative rawLabel :
  rawLabel ≠ "POSITIVE" → class_name rawLabel = "negative".
Proof.
  unfold class_name. destruct (String.eqb_spec rawLabel "POSITIVE"); tauto.
Qed.

Section HandlerFacts.
Context {F : Type} `{!PyFloat F}.

(** When the test [score < 0.6] fails, steps 1 and 2 stand. *)
Lemma remap_confident rawLabel (c : F) :
  flt c f0_6 = false →
  remap {| raw_label := rawLabel; raw_score := c |}
  = (class_name rawLabel, class_scores rawLabel c).
Proof.
  intros Hc. unfold remap, class_name, class_scores. simpl.
  destruct (String.eqb rawLabel "POSITIVE"); rewrite Hc; reflexivity.
Qed.

(** When the test [score < 0.6] succeeds, the label and the neutral entry
    are overwritten, and nothing else. *)
Lemma remap_unsure rawLabel (c : F) :
  flt c f0_6 = true →
  remap {| raw_label := rawLabel; raw_score := c |}
  = ("neutral", <["neutral" := fsub f1 c]> (class_scores rawLabel c)).
Proof.
  intros Hc. unfold remap, class_scores. simpl.
  destruct (String.eqb rawLabel "POSITIVE"); rewrite Hc; reflexivity.
Qed.

Lemma class_scores_predicted rawLabel (c : F) :
  class_scores rawLabel c !! class_name rawLabel = Some c.
Proof.
  unfold class_scores, class_name.
  destruct (String.eqb rawLabel "POSITIVE"); by simplify_map_eq.
Qed.

Lemma class_scores_other rawLabel (c : F) :
  class_scores rawLabel c !! other_class (class_name rawLabel)
  = Some (fsub f1 c).
Proof.
  unfold class_scores, class_name, other_class.
  destruct (String.eqb rawLabel "POSITIVE"); by simplify_map_eq.
Qed.

Lemma class_scores_neutral rawLabel (c : F) :
  class_scores rawLabel c !! "neutral" = Some f0_0.
Proof.
  unfold class_scores.
  destruct (String.eqb rawLabel "POSITIVE"); by simplify_map_eq.
Qed.

Lemma class_scores_positive rawLabel (c : F) :
  class_scores rawLabel c !! "positive"
  = Some (if String.eqb rawLabel "POSITIVE" then c else fsub f1 c).
Proof.
  unfold class_scores.
  destruct (String.eqb rawLabel "POSITIVE"); by simplify_map_eq.
Qed.

Lemma class_scores_negative rawLabel (c : F) :
  class_scores rawLabel c !! "negative"
  = Some (if String.eqb rawLabel "POSITIVE" then fsub f1 c else c).
Proof.
  unfold class_scores.
  destruct (String.eqb rawLabel "POSITIVE"); by simplify_map_eq.
Qed.

(** ** The handlers, once their guards are passed *)

(** A non-blank text on which the model answers is answered with the
    remapped first prediction. *)
Lemma analyze_sentiment_returns (p : Pipeline F) req pred rest :
  blank (text req) = false →
  p (take 512 (text req)) = Val (pred :: rest) →
  analyze_sentiment (Some p) req
  = Return {| label := (remap pred).1; score := raw_score pred;
              scores := (remap pred).2 |}.
Proof.
  intros Hb Hp. unfold analyze_sentiment.
  rewrite rejected_blank, Hb, Hp. simpl.
  destruct (remap pred); reflexivity.
Qed.

(** Whatever the loop returns is the list it started from, followed by one
    entry for each non-blank text, in order. *)
Lemma batch_loop_items (p : Pipeline F) ts acc out :
  batch_loop p ts acc = Val out →
  ∃ items, out = (acc ++ items)%list ∧
    Forall2 (item_for p) (List.filter (λ t, negb (blank t)) ts) items.
Proof.
  revert acc. induction ts as [|t ts IH]; intros acc; simpl.
  - intros [= <-]. exists []. rewrite app_nil_r. split; constructor.
  - rewrite kept_not_blank. destruct (blank t); simpl; [apply IH|].
    destruct (p (take 512 t)) as [[|pred rest]|e] eqn:Hp; simpl;
      try discriminate.
    destruct (remap pred) as [lbl scs] eqn:Hr. intros Hout.
    destruct (IH _ Hout) as (items & -> & Hitems).
    eexists (_ :: items). rewrite <- app_assoc. split; [reflexivity|].
    constructor; [|exact Hitems].
    exists pred, rest. split; [exact Hp|]. rewrite Hr. reflexivity.
Qed.

(** The loop returns when the model answers on every non-blank text. *)
Lemma batch_loop_returns (p : Pipeline F) ts acc :
  (∀ t, t ∈ ts → blank t = false →
        ∃ pred rest, p (take 512 t) = Val (pred :: rest)) →
  ∃ out, batch_loop p ts acc = Val out.
Proof.
  revert acc. induction ts as [|t ts IH]; intros acc Hp; simpl.
  - eexists; reflexivity.
  - rewrite kept_not_blank. destruct (blank t) eqn:Hb; simpl.
    + apply IH. intros t' Ht'. apply Hp. by right.
    + destruct (Hp t) as (pred & rest & ->); [by left | exact Hb |]. simpl.
      destruct (remap pred). apply IH. intros t' Ht'. apply Hp. by right.
Qed.

(** The loop adds nothing for blank texts, and never calls the model. *)
Lemma batch_loop_all_blank (p : Pipeline F) ts acc :
  (∀ t, t ∈ ts → blank t = true) →
  batch_loop p ts acc = Val acc.
Proof.
  induction ts as [|t ts IH]; intros Hblank; simpl; [reflexivity|].
  rewrite kept_not_blank, (Hblank t) by (by left). simpl.
  apply IH. intros t' Ht'. apply Hblank. by right.
Qed.

(** The two guards of the batch handler pass on 1 to 100 texts. *)
Lemma analyze_sentiment_batch_accepted (p : Pipeline F) req :
  (1 ≤ length (texts req) ≤ 100)%nat →
  analyze_sentiment_batch (Some p) req
  = try_except
      (results ← batch_loop p (texts req) [];
       mret {| results := results; total := length results |})
      (λ e, Raise {| status_code := 500;
                     detail := "Failed to analyze sentiments" |}).
Proof.
  intros [Hlo Hhi]. unfold analyze_sentiment_batch.
  destruct (texts req) as [|t ts] eqn:Hts; simpl in *; [lia|].
  destruct (Nat.ltb_spec 100 (S (length ts))); [lia | reflexivity].
Qed.

(** A returned batch body was produced by a loaded model on 1 to 100 texts
    and lists the non-blank texts' entries in order. *)
Lemma analyze_sentiment_batch_returned (h : option (Pipeline F)) req body :
  analyze_sentiment_batch h req = Return body →
  ∃ p, h = Some p ∧ (1 ≤ length (texts req) ≤ 100)%nat ∧
    Forall2 (item_for p) (List.filter (λ t, negb (blank t)) (texts req))
      (results body) ∧
    total body = length (results body).
Proof.
  destruct h as [p|]; [|discriminate]. intros Hret. exists p.
  assert (1 ≤ length (texts req) ≤ 100)%nat as Hlen.
  { unfold analyze_sentiment_batch in Hret.
    destruct (texts req) as [|t ts]; simpl in *; [discriminate|].
    destruct (Nat.ltb_spec 100 (S (length ts))); [discriminate | lia]. }
  rewrite (analyze_sentiment_batch_accepted p req Hlen) in Hret.
  destruct (batch_loop p (texts req) []) as [out|e] eqn:Hloop;
    simpl in Hret; [|destruct e; discriminate].
  injection Hret as <-. simpl.
  destruct (batch_loop_items _ _ _ _ Hloop) as (items & -> & Hitems).
  auto.
Qed.

(** An accepted batch on which the model answers is answered. *)
Lemma analyze_sentiment_batch_returns (p : Pipeline F) req :
  (1 ≤ length (texts req) ≤ 100)%nat →
  (∀ t, t ∈ texts req → blank t = false →
        ∃ pred rest, p (take 512 t) = Val (pred :: rest)) →
  ∃ body, analyze_sentiment_batch (Some p) req = Return body.
Proof.
  intros Hlen Hp. rewrite (analyze_sentiment_batch_accepted p req Hlen).
  destruct (batch_loop_returns p (texts req) [] Hp) as [out ->].
  simpl. eexists; reflexivity.
Qed.

(** A model call that raises an instance of [Exception], or an empty
    answer, ends [analyze_sentiment] in 500; an exception of another class
    escapes from it. *)
Lemma analyze_sentiment_inference_failure (p : Pipeline F) req e :
  blank (text req) = false →
  call_error p (text req) = Some e →
  analyze_sentiment (Some p) req
  = match e with
    | Exception _ =>
        Raise {| status_code := 500;
                 detail := "Failed to analyze sentiment" |}
    | BaseException name => Escape (BaseException name)
    end.
Proof.
  intros Hb He. unfold analyze_sentiment. rewrite rejected_blank, Hb. simpl.
  unfold call_error in He.
  destruct (p (take 512 (text req))) as [[|pred rest]|e']; simpl;
    [injection He as <-; reflexivity | discriminate |].
  injection He as <-. destruct e'; reflexivity.
Qed.

End HandlerFacts.

(** ** Concrete runs *)

Example strip_example : strip (str_of "  a b  ") = str_of "a b".
Proof. reflexivity. Qed.

Example strip_tab_newline : strip [9; 10; 0x3000; 0xA0]%N = [].
Proof. reflexivity. Qed.

Example blank_examples :
  blank (str_of "") = true ∧ blank (str_of "  ") = true ∧
  blank (str_of "good") = false ∧ blank (str_of " x ") = false.
Proof. repeat split. Qed.

(** The spec's first example, class POSITIVE with confidence 0.95, in exact
    arithmetic. *)
Example exact_confident_example :
  analyze_sentiment (Some confident_model) {| text := str_of "good" |}
  = Return {| label := "positive"; score := 0.95%Q;
              scores := {[ "positive" := 0.95%Q; "negative" := 0.05%Q;
                           "neutral" := 0%Q ]} |}.
Proof. vm_compute. reflexivity. Qed.

(** The spec's second example, class NEGATIVE with confidence 0.55, in
    exact arithmetic: there the entries are 0.45. *)
Example exact_hesitant_example :
  analyze_sentiment (Some hesitant_model) {| text := str_of "bad" |}
  = Return {| label := "neutral"; score := 0.55%Q;
              scores := {[ "positive" := 0.45%Q; "negative" := 0.55%Q;
                           "neutral" := 0.45%Q ]} |}.
Proof. vm_compute. reflexivity. Qed.

(** A model call that raises ends the request in 500. *)
Example failing_model_example :
  analyze_sentiment (F:=Q) (Some (λ _, Exn (Exception "RuntimeError")))
    {| text := str_of "good" |}
  = Raise {| status_code := 500; detail := "Failed to analyze sentiment" |}
  ∧ analyze_sentiment_batch (F:=Q)
      (Some (λ _, Exn (Exception "RuntimeError")))
      {| texts := [str_of "good"] |}
    = Raise {| status_code := 500;
               detail := "Failed to analyze sentiments" |}.
Proof. split; reflexivity. Qed.

(** A model call interrupted from the keyboard is not answered with 500:
    the exception escapes from the handler. *)
Example interrupted_model_example :
  analyze_sentiment (F:=Q)
    (Some (λ _, Exn (BaseException "KeyboardInterrupt")))
    {| text := str_of "good" |}
  = Escape (BaseException "KeyboardInterrupt")
  ∧ analyze_sentiment_batch (F:=Q)
      (Some (λ _, Exn (BaseException "KeyboardInterrupt")))
      {| texts := [str_of "good"] |}
    = Escape (BaseException "KeyboardInterrupt").
Proof. split; reflexivity. Qed.

(** ** The spec's two examples as a Python float computes them *)

(** With class POSITIVE and confidence 0.95 the handlers' own subtraction
    gives the negative entry, which is not the float written [0.05]. *)
Example binary64_confident_example :
  remap {| raw_label := "POSITIVE"; raw_score := 0.95%float |}
  = ("positive",
     {[ "positive" := 0.95%float; "negative" := (1 - 0.95)%float;
        "neutral" := 0%float ]})
  ∧ PrimFloat.eqb (1 - 0.95) 0.05 = false.
Proof. split; vm_compute; reflexivity. Qed.

(** With class NEGATIVE and confidence 0.55, likewise: the positive and
    neutral entries are the float [1 - 0.55], one unit in the last place
    below the float written [0.45]. *)
Example binary64_hesitant_example :
  remap {| raw_label := "NEGATIVE"; raw_score := 0.55%float |}
  = ("neutral",
     {[ "positive" := (1 - 0.55)%float; "negative" := 0.55%float;
        "neutral" := (1 - 0.55)%float ]})
  ∧ PrimFloat.eqb (1 - 0.55) 0.45 = false
  ∧ PrimFloat.eqb (next_up (1 - 0.55)) 0.45 = true.
Proof. repeat split; vm_compute; reflexivity. Qed.

(** * The claims *)

(** C1. On binary64, the arithmetic the service runs on: for a confidence
    that compares at least 0.6 the response of [analyze_sentiment] carries
    the label "positive" exactly when the model's class is POSITIVE and
    "negative" otherwise; [scores] gives the confidence to that label, one
    minus the confidence to the opposite class, and zero to "neutral".
    (Stated for any class name the model returns; it covers POSITIVE and
    NEGATIVE.) *)
Theorem C1_confident_prediction_keeps_class
    (p : Pipeline float) (req : SentimentRequest)
    (rawLabel : string) (confidence : float)
    (rest : list (Prediction float)) :
  blank (text req) = false →
  p (take 512 (text req))
    = Val ({| raw_label := rawLabel; raw_score := confidence |} :: rest) →
  (0.6 <=? confidence)%float = true →
  ∃ r, analyze_sentiment (Some p) req = Return r ∧
    (label r = "positive" ↔ rawLabel = "POSITIVE") ∧
    (rawLabel ≠ "POSITIVE" → label r = "negative") ∧
    scores r !! label r = Some confidence ∧
    scores r !! other_class (label r) = Some (1 - confidence)%float ∧
    scores r !! "neutral" = Some 0%float.
Proof.
  intros Hb Hp Hc. eexists. split.
  { apply (analyze_sentiment_returns p req _ rest Hb Hp). }
  apply binary64_reaches_threshold in Hc.
  rewrite (remap_confident rawLabel confidence Hc). simpl.
  split; [apply class_name_positive|].
  split; [apply class_name_negative|].
  split; [exact (class_scores_predicted rawLabel confidence)|].
  split; [exact (class_scores_other rawLabel confidence)|].
  exact (class_scores_neutral rawLabel confidence).
Qed.

Lemma C1_witness :
  ∃ r,
    analyze_sentiment (Some confident_binary64_model)
      {| text := str_of "good" |} = Return r ∧
    (label r = "positive" ↔ "POSITIVE" = "POSITIVE") ∧
    ("POSITIVE" ≠ "POSITIVE" → label r = "negative") ∧
    scores r !! label r = Some 0.95%float ∧
    scores r !! other_class (label r) = Some (1 - 0.95)%float ∧
    scores r !! "neutral" = Some 0%float.
Proof.
  apply (C1_confident_prediction_keeps_class confident_binary64_model
           {| text := str_of "good" |} "POSITIVE" 0.95%float []).
  - reflexivity.
  - reflexivity.
  - vm_compute. reflexivity.
Defined.

(** C2, as stated, fails on the spec's own example: with class NEGATIVE and
    confidence 0.55 the handler does not return the scores positive 0.45,
    negative 0.55, neutral 0.45, because the float [1 - 0.55] is not the
    float [0.45]. *)
Lemma C2_counterexample :
  analyze_sentiment (Some hesitant_binary64_model) {| text := str_of "bad" |}
  ≠ Return {| label := "neutral"; score := 0.55%float;
              scores := {[ "positive" := 0.45%float;
                           "negative" := 0.55%float;
                           "neutral" := 0.45%float ]} |}.
Proof.
  intros E.
  apply (f_equal
           (λ r, match r with
                 | Return b =>
                     match scores b !! "neutral" with
                     | Some v => (v =? 0.45)%float
                     | None => false
                     end
                 | _ => false
                 end)) in E.
  vm_compute in E. discriminate.
Qed.

(** C2, amended. On binary64: for a confidence that compares below 0.6 the
    response of [analyze_sentiment] is labelled "neutral" whatever the
    model's class, and [scores] gives one minus the confidence, as the
    float subtraction computes it, to "neutral". With class NEGATIVE and
    confidence 0.55 the response is label "neutral", score 0.55 and scores
    positive [1 - 0.55], negative 0.55, neutral [1 - 0.55], where [1 - 0.55]
    is the float just below the float 0.45 (0.44999999999999996). *)
Theorem C2_low_confidence_forces_neutral :
  (∀ (p : Pipeline float) (req : SentimentRequest) (rawLabel : string)
     (confidence : float) (rest : list (Prediction float)),
     blank (text req) = false →
     p (take 512 (text req))
       = Val ({| raw_label := rawLabel; raw_score := confidence |} :: rest) →
     (confidence <? 0.6)%float = true →
     ∃ r, analyze_sentiment (Some p) req = Return r ∧
       label r = "neutral" ∧
       scores r !! "neutral" = Some (1 - confidence)%float)
  ∧
  (∀ (p : Pipeline float) (req : SentimentRequest)
     (rest : list (Prediction float)),
     blank (text req) = false →
     p (take 512 (text req))
       = Val ({| raw_label := "NEGATIVE"; raw_score := 0.55%float |}
              :: rest) →
     analyze_sentiment (Some p) req
     = Return {| label := "neutral"; score := 0.55%float;
                 scores := {[ "positive" := (1 - 0.55)%float;
                              "negative" := 0.55%float;
                              "neutral" := (1 - 0.55)%float ]} |})
  ∧ (1 - 0.55 =? 0.45)%float = false
  ∧ (next_up (1 - 0.55) =? 0.45)%float = true
  ∧ (1 - 0.55 =? 0.44999999999999996)%float = true.
Proof.
  split; [|split; [|repeat split; vm_compute; reflexivity]].
  - intros p req rawLabel confidence rest Hb Hp Hc. eexists. split.
    { apply (analyze_sentiment_returns p req _ rest Hb Hp). }
    change (flt confidence f0_6 = true) in Hc.
    rewrite (remap_unsure rawLabel confidence Hc). simpl.
    split; [reflexivity|]. by simplify_map_eq.
  - intros p req rest Hb Hp.
    rewrite (analyze_sentiment_returns p req _ rest Hb Hp).
    vm_compute. reflexivity.
Qed.

Lemma C2_witness :
  (∃ r,
     analyze_sentiment (Some hesitant_binary64_model)
       {| text := str_of "bad" |} = Return r ∧
     label r = "neutral" ∧
     scores r !! "neutral" = Some (1 - 0.55)%float)
  ∧
  analyze_sentiment (Some hesitant_binary64_model) {| text := str_of "bad" |}
  = Return {| label := "neutral"; score := 0.55%float;
              scores := {[ "positive" := (1 - 0.55)%float;
                           "negative" := 0.55%float;
                           "neutral" := (1 - 0.55)%float ]} |}.
Proof.
  split.
  - apply (proj1 C2_low_confidence_forces_neutral hesitant_binary64_model
             {| text := str_of "bad" |} "NEGATIVE" 0.55%float []).
    + reflexivity.
    + reflexivity.
    + vm_compute. reflexivity.
  - apply (proj1 (proj2 C2_low_confidence_forces_neutral)
             hesitant_binary64_model {| text := str_of "bad" |} []).
    + reflexivity.
    + reflexivity.
Defined.

(** C3. The [score] field of the response of [analyze_sentiment] is the
    confidence the model returned, whatever the class and whichever way the
    threshold test goes: the forced-neutral branch leaves it alone. Stated
    for every arithmetic, so without the bound on the confidence. *)
Theorem C3_score_is_input_confidence
    {F : Type} `{!PyFloat F} (p : Pipeline F) (req : SentimentRequest)
    (rawLabel : string) (confidence : F) (rest : list (Prediction F)) :
  blank (text req) = false →
  p (take 512 (text req))
    = Val ({| raw_label := rawLabel; raw_score := confidence |} :: rest) →
  ∃ r, analyze_sentiment (Some p) req = Return r ∧
    score r = confidence ∧
    (flt confidence f0_6 = true → label r = "neutral") ∧
    (flt confidence f0_6 = false → label r = class_name rawLabel).
Proof.
  intros Hb Hp. eexists. split.
  { apply (analyze_sentiment_returns p req _ rest Hb Hp). }
  simpl. split; [reflexivity|]. split; intros Hc.
  - rewrite (remap_unsure rawLabel confidence Hc). reflexivity.
  - rewrite (remap_confident rawLabel confidence Hc). reflexivity.
Qed.

Lemma C3_witness :
  ∃ r, analyze_sentiment (Some hesitant_model) {| text := str_of "bad" |}
       = Return r ∧
    score r = 0.55%Q ∧
    (flt 0.55%Q f0_6 = true → label r = "neutral") ∧
    (flt 0.55%Q f0_6 = false → label r = class_name "NEGATIVE").
Proof.
  apply (C3_score_is_input_confidence
           hesitant_model {| text := str_of "bad" |} "NEGATIVE" 0.55%Q []).
  - reflexivity.
  - reflexivity.
Defined.

(** C4. In exact arithmetic: for a confidence of at least 0.6 the three
    entries of [scores] sum to 1; for a confidence below 0.6 the positive
    and negative entries are those of steps 1 and 2, the neutral entry is
    one minus the confidence, and the sum is two minus the confidence, which
    is not 1. *)
Theorem C4_scores_sum
    (p : Pipeline Q) (req : SentimentRequest)
    (rawLabel : string) (confidence : Q) (rest : list (Prediction Q)) :
  blank (text req) = false →
  p (take 512 (text req))
    = Val ({| raw_label := rawLabel; raw_score := confidence |} :: rest) →
  ∃ r pos neg neu,
    analyze_sentiment (Some p) req = Return r ∧
    scores r !! "positive" = Some pos ∧
    scores r !! "negative" = Some neg ∧
    scores r !! "neutral" = Some neu ∧
    ((0.6 <= confidence)%Q → (pos + neg + neu == 1)%Q) ∧
    ((confidence < 0.6)%Q →
       pos = (if String.eqb rawLabel "POSITIVE"
              then confidence else (1 - confidence)%Q) ∧
       neg = (if String.eqb rawLabel "POSITIVE"
              then (1 - confidence)%Q else confidence) ∧
       neu = (1 - confidence)%Q ∧
       (pos + neg + neu == 2 - confidence)%Q ∧
       ¬ (pos + neg + neu == 1)%Q).
Proof.
  intros Hb Hp.
  exists {| label := (remap {| raw_label := rawLabel;
                               raw_score := confidence |}).1;
            score := confidence;
            scores := (remap {| raw_label := rawLabel;
                                raw_score := confidence |}).2 |}.
  exists (if String.eqb rawLabel "POSITIVE"
          then confidence else (1 - confidence)%Q).
  exists (if String.eqb rawLabel "POSITIVE"
          then (1 - confidence)%Q else confidence).
  exists (if flt confidence f0_6 then (1 - confidence)%Q else 0%Q).
  split; [apply (analyze_sentiment_returns p req _ rest Hb Hp)|].
  destruct (flt confidence f0_6) eqn:Hc; cbn [scores].
  - rewrite (remap_unsure rawLabel confidence Hc). simpl.
    apply exact_below_threshold in Hc.
    rewrite !lookup_insert_ne by done. rewrite lookup_insert_eq.
    split; [exact (class_scores_positive rawLabel confidence)|].
    split; [exact (class_scores_negative rawLabel confidence)|].
    split; [reflexivity|].
    split; [intros Hge; lra|]. intros _.
    repeat (split; [reflexivity|]).
    destruct (String.eqb rawLabel "POSITIVE"); split; lra.
  - rewrite (remap_confident rawLabel confidence Hc). simpl.
    apply exact_reaches_threshold in Hc.
    split; [exact (class_scores_positive rawLabel confidence)|].
    split; [exact (class_scores_negative rawLabel confidence)|].
    split; [exact (class_scores_neutral rawLabel confidence)|].
    split; [|intros Hlt; lra]. intros _.
    destruct (String.eqb rawLabel "POSITIVE"); lra.
Qed.

Lemma C4_witness :
  ∃ r pos neg neu,
    analyze_sentiment (Some hesitant_model) {| text := str_of "bad" |}
      = Return r ∧
    scores r !! "positive" = Some pos ∧
    scores r !! "negative" = Some neg ∧
    scores r !! "neutral" = Some neu ∧
    ((0.6 <= 0.55)%Q → (pos + neg + neu == 1)%Q) ∧
    ((0.55 < 0.6)%Q →
       pos = (if String.eqb "NEGATIVE" "POSITIVE"
              then 0.55%Q else (1 - 0.55)%Q) ∧
       neg = (if String.eqb "NEGATIVE" "POSITIVE"
              then (1 - 0.55)%Q else 0.55%Q) ∧
       neu = (1 - 0.55)%Q ∧
       (pos + neg + neu == 2 - 0.55)%Q ∧
       ¬ (pos + neg + neu == 1)%Q).
Proof.
  apply (C4_scores_sum
           hesitant_model {| text := str_of "bad" |} "NEGATIVE" 0.55%Q []).
  - reflexivity.
  - reflexivity.
Defined.

(** C5. An accepted batch request (1 to 100 texts, model loaded and
    answering on every text it is asked about) is answered with a body
    whose [results] hold exactly one entry for each input text that is not
    blank, in input order, and whose [total] is the length of [results]. On
    the texts "", "good", "  ", "bad" there are two entries, for "good" and
    "bad", and [total] is 2. *)
Theorem C5_batch_one_entry_per_surviving_text :
  (∀ {F : Type} `{!PyFloat F} (p : Pipeline F) (req : BatchSentimentRequest),
     (1 ≤ length (texts req) ≤ 100)%nat →
     (∀ t, t ∈ texts req → blank t = false →
           ∃ pred rest, p (take 512 t) = Val (pred :: rest)) →
     ∃ body, analyze_sentiment_batch (Some p) req = Return body ∧
       Forall2 (item_for p)
         (List.filter (λ t, negb (blank t)) (texts req)) (results body) ∧
       total body = length (results body))
  ∧
  (∀ {F : Type} `{!PyFloat F} (p : Pipeline F),
     (∀ t, t ∈ [str_of "good"; str_of "bad"] →
           ∃ pred rest, p (take 512 t) = Val (pred :: rest)) →
     ∃ body,
       analyze_sentiment_batch (Some p)
         {| texts := [str_of ""; str_of "good"; str_of "  "; str_of "bad"] |}
       = Return body ∧
       map item_text (results body) = [str_of "good"; str_of "bad"] ∧
       length (results body) = 2%nat ∧
       total body = 2%nat).
Proof.
  assert (∀ {F : Type} `{!PyFloat F} (p : Pipeline F) req,
     (1 ≤ length (texts req) ≤ 100)%nat →
     (∀ t, t ∈ texts req → blank t = false →
           ∃ pred rest, p (take 512 t) = Val (pred :: rest)) →
     ∃ body, analyze_sentiment_batch (Some p) req = Return body ∧
       Forall2 (item_for p)
         (List.filter (λ t, negb (blank t)) (texts req)) (results body) ∧
       total body = length (results body)) as General.
  { intros F HF p req Hlen Hp.
    destruct (analyze_sentiment_batch_returns p req Hlen Hp) as [body Hret].
    exists body. split; [exact Hret|].
    destruct (analyze_sentiment_batch_returned _ _ _ Hret)
      as (p' & [= <-] & _ & Hitems & Htotal).
    auto. }
  split; [exact General|].
  intros F HF p Hp.
  destruct (General F HF p
    {| texts := [str_of ""; str_of "good"; str_of "  "; str_of "bad"] |})
    as (body & Hret & Hitems & Htotal).
  { simpl. lia. }
  { simpl. intros t Ht Hb. apply Hp.
    repeat (apply elem_of_cons in Ht as [->|Ht]); try discriminate Hb.
    - by left.
    - right. by left.
    - by apply elem_of_nil in Ht. }
  exists body. split; [exact Hret|].
  change (List.filter _ _) with [str_of "good"; str_of "bad"] in Hitems.
  inversion Hitems as [|? i1 ? l1 (? & ? & _ & ->) Htl]; subst.
  inversion Htl as [|? i2 ? l2 (? & ? & _ & ->) Hnil]; subst.
  inversion Hnil; subst.
  rewrite Htotal. match goal with H : _ = results body |- _ => rewrite <- H end.
  split; [reflexivity|]. split; reflexivity.
Qed.

Lemma C5_witness :
  (∃ body,
     analyze_sentiment_batch (Some hesitant_model)
       {| texts := [str_of "bad"; str_of " "] |} = Return body ∧
     Forall2 (item_for hesitant_model)
       (List.filter (λ t, negb (blank t)) [str_of "bad"; str_of " "])
       (results body) ∧
     total body = length (results body))
  ∧
  (∃ body,
     analyze_sentiment_batch (Some confident_model)
       {| texts := [str_of ""; str_of "good"; str_of "  "; str_of "bad"] |}
     = Return body ∧
     map item_text (results body) = [str_of "good"; str_of "bad"] ∧
     length (results body) = 2%nat ∧
     total body = 2%nat).
Proof.
  split.
  - apply (proj1 C5_batch_one_entry_per_surviving_text Q exact hesitant_model
             {| texts := [str_of "bad"; str_of " "] |}).
    + simpl. lia.
    + intros t _ _.
      exists {| raw_label := "NEGATIVE"; raw_score := 0.55%Q |}, [].
      reflexivity.
  - apply (proj2 C5_batch_one_entry_per_surviving_text Q exact
             confident_model).
    intros t _.
    exists {| raw_label := "POSITIVE"; raw_score := 0.95%Q |}, [].
    reflexivity.
Defined.

(** C6. In every body the batch handler returns, the entries echo the
    non-blank input texts in order: a text longer than 100 characters as its
    first 100 characters followed by "...", a text of at most 100 characters
    unchanged. A non-blank text of 150 characters sent alone is answered
    with one entry whose text is its first 100 characters and "...". *)
Theorem C6_batch_echo_truncates_at_100 :
  (∀ {F : Type} `{!PyFloat F} (h : option (Pipeline F))
     (req : BatchSentimentRequest) (body : BatchResponse F),
     analyze_sentiment_batch h req = Return body →
     Forall2
       (λ t item,
          ((100 < length t)%nat →
             item_text item = (take 100 t ++ str_of "...")%list) ∧
          ((length t ≤ 100)%nat → item_text item = t))
       (List.filter (λ t, negb (blank t)) (texts req)) (results body))
  ∧
  (∀ {F : Type} `{!PyFloat F} (p : Pipeline F) (t : str),
     length t = 150%nat →
     blank t = false →
     (∃ pred rest, p (take 512 t) = Val (pred :: rest)) →
     ∃ body item,
       analyze_sentiment_batch (Some p) {| texts := [t] |} = Return body ∧
       results body = [item] ∧
       item_text item = (take 100 t ++ str_of "...")%list ∧
       length (item_text item) = 103%nat).
Proof.
  split.
  - intros F HF h req body Hret.
    destruct (analyze_sentiment_batch_returned _ _ _ Hret)
      as (p & _ & _ & Hitems & _).
    eapply Forall2_impl; [exact Hitems|].
    intros t item (pred & rest & _ & ->). simpl. unfold echoed.
    destruct (Nat.ltb_spec 100 (length t)) as [Hlong|Hshort].
    + split; [reflexivity | lia].
    + split; [lia | reflexivity].
  - intros F HF p t Hlen Hb (pred & rest & Hp).
    unfold analyze_sentiment_batch. simpl.
    rewrite kept_not_blank, Hb, Hp, Hlen. simpl.
    destruct (remap pred) as [lbl scs]. simpl.
    eexists _, _. split; [reflexivity|]. split; [reflexivity|]. simpl.
    split; [reflexivity|].
    rewrite length_app, length_take, Hlen. reflexivity.
Qed.

Lemma C6_witness :
  Forall2
    (λ t item,
       ((100 < length t)%nat →
          item_text item = (take 100 t ++ str_of "...")%list) ∧
       ((length t ≤ 100)%nat → item_text item = t))
    (List.filter (λ t, negb (blank t))
       [repeat 120%N 150; str_of "  "; str_of "good"])
    [{| item_text := (repeat 120%N 100 ++ str_of "...")%list;
        item_label := "positive"; item_score := 0.95%Q;
        item_scores := class_scores "POSITIVE" 0.95%Q |};
     {| item_text := str_of "good";
        item_label := "positive"; item_score := 0.95%Q;
        item_scores := class_scores "POSITIVE" 0.95%Q |}].
Proof.
  apply (proj1 C6_batch_echo_truncates_at_100 Q exact (Some confident_model)
           {| texts := [repeat 120%N 150; str_of "  "; str_of "good"] |}
           {| results :=
                [{| item_text := (repeat 120%N 100 ++ str_of "...")%list;
                    item_label := "positive"; item_score := 0.95%Q;
                    item_scores := class_scores "POSITIVE" 0.95%Q |};
                 {| item_text := str_of "good";
                    item_label := "positive"; item_score := 0.95%Q;
                    item_scores := class_scores "POSITIVE" 0.95%Q |}];
              total := 2 |}).
  vm_compute. reflexivity.
Defined.

(** C7. With the model loaded, [POST /analyze] answers 400 to every blank
    text, and [POST /analyze/batch] answers 400 to the empty list and to
    every list of more than 100 texts. *)
Theorem C7_client_input_errors :
  (∀ {F : Type} `{!PyFloat F} (p : Pipeline F) (req : SentimentRequest),
     blank (text req) = true →
     analyze_sentiment (Some p) req
       = Raise {| status_code := 400; detail := "Text cannot be empty" |} ∧
     http_status (analyze_sentiment (Some p) req) = 400%nat)
  ∧
  (∀ {F : Type} `{!PyFloat F} (p : Pipeline F),
     http_status (analyze_sentiment_batch (Some p) {| texts := [] |})
     = 400%nat)
  ∧
  (∀ {F : Type} `{!PyFloat F} (p : Pipeline F) (req : BatchSentimentRequest),
     (100 < length (texts req))%nat →
     http_status (analyze_sentiment_batch (Some p) req) = 400%nat).
Proof.
  split; [|split].
  - intros F HF p req Hb. unfold analyze_sentiment.
    rewrite rejected_blank, Hb. split; reflexivity.
  - reflexivity.
  - intros F HF p req Hlen. unfold analyze_sentiment_batch.
    destruct (texts req) as [|t ts]; simpl in *; [lia|].
    destruct (Nat.ltb_spec 100 (S (length ts))); [reflexivity | lia].
Qed.

Lemma C7_witness :
  (analyze_sentiment (Some confident_model) {| text := str_of "   " |}
     = Raise {| status_code := 400; detail := "Text cannot be empty" |} ∧
   http_status
     (analyze_sentiment (Some confident_model) {| text := str_of "   " |})
   = 400%nat)
  ∧ http_status
      (analyze_sentiment_batch (Some confident_model)
         {| texts := repeat (str_of "good") 101 |})
    = 400%nat.
Proof.
  split.
  - apply (proj1 C7_client_input_errors Q exact confident_model
             {| text := str_of "   " |}).
    reflexivity.
  - apply (proj2 (proj2 C7_client_input_errors) Q exact confident_model
             {| texts := repeat (str_of "good") 101 |}).
    simpl. lia.
Defined.

(** C8. With the model not loaded, [GET /health] still answers 200 with
    [model_loaded] false, and [POST /analyze] and [POST /analyze/batch]
    answer 503. *)
Theorem C8_model_not_loaded_is_unavailable {F : Type} `{!PyFloat F} :
  health_check (F:=F) None
    = Return {| status := "healthy"; model_loaded := false |} ∧
  http_status (health_check (F:=F) None) = 200%nat ∧
  (∀ req, http_status (analyze_sentiment (F:=F) None req) = 503%nat) ∧
  (∀ req, http_status (analyze_sentiment_batch (F:=F) None req) = 503%nat).
Proof. repeat split. Qed.

(** C9. The handle is tested before the input: with the model not loaded
    both POST handlers answer 503 "Model not loaded" to every request, the
    blank text, the empty list and the oversized list included, and never
    400. *)
Theorem C9_model_check_precedes_validation {F : Type} `{!PyFloat F} :
  (∀ req : SentimentRequest,
     analyze_sentiment (F:=F) None req
       = Raise {| status_code := 503; detail := "Model not loaded" |} ∧
     http_status (analyze_sentiment (F:=F) None req) ≠ 400%nat) ∧
  (∀ req : BatchSentimentRequest,
     analyze_sentiment_batch (F:=F) None req
       = Raise {| status_code := 503; detail := "Model not loaded" |} ∧
     http_status (analyze_sentiment_batch (F:=F) None req) ≠ 400%nat).
Proof. split; intros req; (split; [reflexivity | discriminate]). Qed.

(** C10. A batch of 1 to 100 texts that are all blank is not rejected: the
    handler answers 200 with no result and [total] 0. *)
Theorem C10_all_blank_batch_is_empty_success
    {F : Type} `{!PyFloat F} (p : Pipeline F) (req : BatchSentimentRequest) :
  texts req ≠ [] →
  (length (texts req) ≤ 100)%nat →
  (∀ t, t ∈ texts req → blank t = true) →
  analyze_sentiment_batch (Some p) req
    = Return {| results := []; total := 0 |} ∧
  http_status (analyze_sentiment_batch (Some p) req) = 200%nat.
Proof.
  intros Hne Hlen Hblank.
  rewrite analyze_sentiment_batch_accepted.
  - rewrite (batch_loop_all_blank p (texts req) [] Hblank).
    split; reflexivity.
  - destruct (texts req); [contradiction | simpl in *; lia].
Qed.

Lemma C10_witness :
  analyze_sentiment_batch (Some confident_model)
    {| texts := [str_of ""; str_of "  "] |}
    = Return {| results := []; total := 0 |} ∧
  http_status
    (analyze_sentiment_batch (Some confident_model)
       {| texts := [str_of ""; str_of "  "] |}) = 200%nat.
Proof.
  apply (C10_all_blank_batch_is_empty_success confident_model
           {| texts := [str_of ""; str_of "  "] |}).
  - discriminate.
  - simpl. lia.
  - intros t Ht.
    repeat (apply elem_of_cons in Ht as [->|Ht]); try reflexivity.
    by apply elem_of_nil in Ht.
Defined.

(** * Further properties of the handlers *)

Section OutcomeFacts.
Context {F : Type} `{!PyFloat F}.

(** Whether the model answers for a text can be decided by calling it. *)
Lemma answers_dec (p : Pipeline F) (t : str) : answers p t ∨ ¬ answers p t.
Proof.
  unfold answers. destruct (p (take 512 t)) as [[|pred rest]|e].
  - right. intros (? & ? & ?). discriminate.
  - left. eauto.
  - right. intros (? & ? & ?). discriminate.
Qed.

(** The try block meets no exception exactly when the model answers. *)
Lemma call_error_None (p : Pipeline F) (t : str) :
  call_error p t = None ↔ answers p t.
Proof.
  unfold call_error, answers.
  destruct (p (take 512 t)) as [[|pred rest]|e]; split;
    try discriminate; try (intros (? & ? & ?); discriminate); eauto.
Qed.

(** The exception the try block meets is the model's own, or the
    [IndexError] of an empty answer. *)
Lemma call_error_Some (p : Pipeline F) (t : str) e :
  call_error p t = Some e
  ↔ (p (take 512 t) = Val [] ∧ e = Exception "IndexError")
    ∨ p (take 512 t) = Exn e.
Proof.
  unfold call_error.
  destruct (p (take 512 t)) as [[|pred rest]|e']; split;
    try (intros [= <-]; auto); try discriminate;
    try (intros [[? ?]|?]; congruence).
Qed.

(** The five ways [analyze_sentiment] ends. *)
Lemma analyze_sentiment_cases (h : option (Pipeline F))
    (req : SentimentRequest) :
  (h = None ∧
   analyze_sentiment h req
   = Raise {| status_code := 503; detail := "Model not loaded" |}) ∨
  (h ≠ None ∧ blank (text req) = true ∧
   analyze_sentiment h req
   = Raise {| status_code := 400; detail := "Text cannot be empty" |}) ∨
  (∃ p name, h = Some p ∧ blank (text req) = false ∧
     call_error p (text req) = Some (Exception name) ∧
     analyze_sentiment h req
     = Raise {| status_code := 500;
                detail := "Failed to analyze sentiment" |}) ∨
  (∃ p name, h = Some p ∧ blank (text req) = false ∧
     call_error p (text req) = Some (BaseException name) ∧
     analyze_sentiment h req = Escape (BaseException name)) ∨
  (∃ p pred rest, h = Some p ∧ blank (text req) = false ∧
     p (take 512 (text req)) = Val (pred :: rest) ∧
     analyze_sentiment h req
     = Return {| label := (remap pred).1; score := raw_score pred;
                 scores := (remap pred).2 |}).
Proof.
  destruct h as [p|]; [|left; split; reflexivity]. right.
  destruct (blank (text req)) eqn:Hb.
  { left. repeat split; [discriminate|].
    unfold analyze_sentiment. rewrite rejected_blank, Hb. reflexivity. }
  right. destruct (call_error p (text req)) as [[name|name]|] eqn:He.
  - left. exists p, name.
    split; [reflexivity|]. split; [reflexivity|]. split; [exact He|].
    exact (analyze_sentiment_inference_failure p req _ Hb He).
  - right. left. exists p, name.
    split; [reflexivity|]. split; [reflexivity|]. split; [exact He|].
    exact (analyze_sentiment_inference_failure p req _ Hb He).
  - right. right. apply call_error_None in He as (pred & rest & Hp).
    exists p, pred, rest.
    split; [reflexivity|]. split; [reflexivity|]. split; [exact Hp|].
    exact (analyze_sentiment_returns p req pred rest Hb Hp).
Qed.

(** Every entry the loop adds comes from a text the model answered for. *)
Lemma items_answered (p : Pipeline F) ts items :
  Forall2 (item_for p) ts items → ∀ t, t ∈ ts → answers p t.
Proof.
  induction 1 as [|t item ts items (pred & rest & Hp & _) _ IH];
    intros t' Ht'.
  - by apply elem_of_nil in Ht'.
  - apply elem_of_cons in Ht' as [->|Ht']; [|by apply IH].
    exists pred, rest. exact Hp.
Qed.

(** The loop raises [e] exactly when it stops at a text on which the try
    block meets [e]. *)
Lemma batch_loop_raises (p : Pipeline F) ts acc e :
  batch_loop p ts acc = Exn e ↔ ∃ t, stops_at p ts t e.
Proof.
  split.
  - revert acc. induction ts as [|t ts IH]; intros acc He; simpl in He.
    + discriminate.
    + rewrite kept_not_blank in He.
      destruct (blank t) eqn:Hb; simpl in He.
      * destruct (IH acc He) as (t' & before & after & -> & Hbefore & ?).
        exists t', (t :: before), after. split; [reflexivity|].
        split; [|assumption].
        intros t'' Ht''. apply elem_of_cons in Ht'' as [->|Ht''].
        -- rewrite Hb. discriminate.
        -- by apply Hbefore.
      * destruct (call_error p t) as [e'|] eqn:Hce.
        -- exists t, [], ts. split; [reflexivity|].
           split; [intros ? Hin; by apply elem_of_nil in Hin|].
           split; [exact Hb|].
           unfold call_error in *.
           destruct (p (take 512 t)) as [[|pred rest]|e'']; simpl in He;
             congruence.
        -- pose proof (proj1 (call_error_None p t) Hce)
             as (pred & rest & Hp).
           rewrite Hp in He. simpl in He. destruct (remap pred).
           destruct (IH _ He) as (t' & before & after & -> & Hbefore & ?).
           exists t', (t :: before), after. split; [reflexivity|].
           split; [|assumption].
           intros t'' Ht''. apply elem_of_cons in Ht'' as [->|Ht''].
           ++ intros _. exists pred, rest. exact Hp.
           ++ by apply Hbefore.
  - intros (t & before & after & -> & Hbefore & Hb & Hce). revert acc.
    induction before as [|b before IH]; intros acc; simpl.
    + rewrite kept_not_blank, Hb. simpl. unfold call_error in Hce.
      destruct (p (take 512 t)) as [[|pred rest]|e']; simpl; congruence.
    + assert (∀ t', t' ∈ before → blank t' = false → answers p t')
        as Hbefore'.
      { intros t' Ht'. apply Hbefore. by right. }
      rewrite kept_not_blank. destruct (blank b) eqn:Hbb; simpl.
      * by apply IH.
      * destruct (Hbefore b) as (pred & rest & ->); [by left | exact Hbb |].
        simpl. destruct (remap pred). by apply IH.
Qed.

(** The text the loop stops at, and the exception met there, are unique. *)
Lemma stops_at_exception_unique (p : Pipeline F) ts t t' e e' :
  stops_at p ts t e → stops_at p ts t' e' → e = e'.
Proof using All.
  intros H1 H2.
  pose proof (proj2 (batch_loop_raises p ts [] e) (ex_intro _ t H1)) as E1.
  pose proof (proj2 (batch_loop_raises p ts [] e') (ex_intro _ t' H2)) as E2.
  congruence.
Qed.

(** The loop does not stop when the model answers for every non-blank
    text. *)
Lemma stops_at_not_answered (p : Pipeline F) ts t e :
  stops_at p ts t e →
  ¬ (∀ t', t' ∈ ts → blank t' = false → answers p t').
Proof.
  intros (before & after & -> & _ & Hb & Hce) Hall.
  assert (answers p t) as Ha.
  { apply Hall; [|exact Hb]. apply elem_of_app. right. by left. }
  apply call_error_None in Ha. congruence.
Qed.

(** The six ways [analyze_sentiment_batch] ends. *)
Lemma analyze_sentiment_batch_cases (h : option (Pipeline F))
    (req : BatchSentimentRequest) :
  (h = None ∧
   analyze_sentiment_batch h req
   = Raise {| status_code := 503; detail := "Model not loaded" |}) ∨
  (h ≠ None ∧ texts req = [] ∧
   analyze_sentiment_batch h req
   = Raise {| status_code := 400; detail := "No texts provided" |}) ∨
  (h ≠ None ∧ (100 < length (texts req))%nat ∧
   analyze_sentiment_batch h req
   = Raise {| status_code := 400;
              detail := "Maximum 100 texts per batch" |}) ∨
  (∃ p t name, h = Some p ∧ (1 ≤ length (texts req) ≤ 100)%nat ∧
        stops_at p (texts req) t (Exception name) ∧
        analyze_sentiment_batch h req
        = Raise {| status_code := 500;
                   detail := "Failed to analyze sentiments" |}) ∨
  (∃ p t name, h = Some p ∧ (1 ≤ length (texts req) ≤ 100)%nat ∧
        stops_at p (texts req) t (BaseException name) ∧
        analyze_sentiment_batch h req = Escape (BaseException name)) ∨
  (∃ p body, h = Some p ∧ (1 ≤ length (texts req) ≤ 100)%nat ∧
        (∀ t, t ∈ texts req → blank t = false → answers p t) ∧
        analyze_sentiment_batch h req = Return body).
Proof.
  destruct h as [p|]; [|left; split; reflexivity]. right.
  destruct (texts req) as [|t0 ts0] eqn:Hts.
  { left. unfold analyze_sentiment_batch. rewrite Hts. repeat split.
    discriminate. }
  right. destruct (Nat.ltb_spec 100 (length (texts req))) as [Hlong|Hok].
  { left. rewrite <- Hts. repeat split; [discriminate | exact Hlong |].
    unfold analyze_sentiment_batch. rewrite Hts in *. simpl in *.
    destruct (Nat.ltb_spec 100 (S (length ts0))); [reflexivity | lia]. }
  right. rewrite <- Hts.
  assert (1 ≤ length (texts req) ≤ 100)%nat as Hlen.
  { rewrite Hts in *. simpl in *. lia. }
  rewrite (analyze_sentiment_batch_accepted p req Hlen).
  destruct (batch_loop p (texts req) []) as [out|e] eqn:Hloop.
  - right. right. exists p, {| results := out; total := length out |}.
    repeat split; try apply Hlen.
    intros t Ht Hb.
    destruct (batch_loop_items _ _ _ _ Hloop) as (items & _ & Hitems).
    apply (items_answered p _ _ Hitems).
    apply list_elem_of_In, filter_In. split.
    + by apply list_elem_of_In.
    + rewrite Hb. reflexivity.
  - apply batch_loop_raises in Hloop as (t & Hstop).
    destruct e as [name|name]; [left | right; left];
      exists p, t, name; repeat split; try apply Hlen; exact Hstop.
Qed.

End OutcomeFacts.

(** X1. [POST /analyze] ends in one of five ways, each with its own cause:
    503 "Model not loaded" when the handle is [None]; 400 when the model is
    loaded and the text is blank; 500 with the fixed detail "Failed to
    analyze sentiment" when the model is loaded, the text is not blank and
    the model call returns no prediction or raises an instance of
    [Exception], whichever it is; no response at all when the model call
    raises an exception that is not an instance of [Exception], which then
    escapes from the handler; a body otherwise. *)
Theorem X1_analyze_sentiment_outcomes
    {F : Type} `{!PyFloat F} (h : option (Pipeline F))
    (req : SentimentRequest) :
  (analyze_sentiment h req
     = Raise {| status_code := 503; detail := "Model not loaded" |}
   ↔ h = None) ∧
  (analyze_sentiment h req
     = Raise {| status_code := 400; detail := "Text cannot be empty" |}
   ↔ h ≠ None ∧ blank (text req) = true) ∧
  (analyze_sentiment h req
     = Raise {| status_code := 500; detail := "Failed to analyze sentiment" |}
   ↔ ∃ p, h = Some p ∧ blank (text req) = false ∧
          (p (take 512 (text req)) = Val []
           ∨ ∃ name, p (take 512 (text req)) = Exn (Exception name))) ∧
  (∀ e, analyze_sentiment h req = Escape e
        ↔ ∃ p name, h = Some p ∧ blank (text req) = false ∧
                    e = BaseException name ∧
                    p (take 512 (text req)) = Exn (BaseException name)) ∧
  ((∃ r, analyze_sentiment h req = Return r)
   ↔ ∃ p, h = Some p ∧ blank (text req) = false ∧ answers p (text req)) ∧
  ((∃ e, analyze_sentiment h req = Escape e)
   ∨ http_status (analyze_sentiment h req) ∈ [200; 400; 500; 503]%nat).
Proof.
  unfold answers.
  destruct (analyze_sentiment_cases h req)
    as [(Hh & ->)|[(Hh & Hb & ->)|[(p & name & Hh & Hb & He & ->)
       |[(p & name & Hh & Hb & He & ->)
        |(p & pred & rest & Hh & Hb & Hp & ->)]]]];
    try apply call_error_Some in He;
    (split; [|split; [|split; [|split; [|split]]]]);
    try (right; simpl; set_solver);
    try (left; eauto; fail);
    try (intros e; split; [discriminate | naive_solver]);
    try (split; [discriminate | naive_solver]);
    try (split; [naive_solver | reflexivity || eauto]).
  all: try (split; [intros (? & ?); discriminate | naive_solver]).
  all: try naive_solver.
  all: intros HH; decompose [and ex or] HH; clear HH;
    try (decompose [and or] He); simplify_eq;
    try reflexivity; try congruence; try contradiction.
Qed.

(** X2. [POST /analyze/batch] ends in one of six ways: 503 when the handle
    is [None]; 400 "No texts provided" for the empty list; 400 "Maximum 100
    texts per batch" for more than 100 texts; otherwise the loop runs up to
    the first non-blank text for which the model gives no prediction, and
    answers 500 with a fixed detail when the exception met there is an
    instance of [Exception] (the [IndexError] of an empty answer included),
    or lets it escape when it is not; no partial result is returned in
    either case; a body is returned exactly when the model answers for
    every non-blank text. *)
Theorem X2_analyze_sentiment_batch_outcomes
    {F : Type} `{!PyFloat F} (h : option (Pipeline F))
    (req : BatchSentimentRequest) :
  (analyze_sentiment_batch h req
     = Raise {| status_code := 503; detail := "Model not loaded" |}
   ↔ h = None) ∧
  (analyze_sentiment_batch h req
     = Raise {| status_code := 400; detail := "No texts provided" |}
   ↔ h ≠ None ∧ texts req = []) ∧
  (analyze_sentiment_batch h req
     = Raise {| status_code := 400; detail := "Maximum 100 texts per batch" |}
   ↔ h ≠ None ∧ (100 < length (texts req))%nat) ∧
  (analyze_sentiment_batch h req
     = Raise {| status_code := 500; detail := "Failed to analyze sentiments" |}
   ↔ ∃ p t name, h = Some p ∧ (1 ≤ length (texts req) ≤ 100)%nat ∧
                 stops_at p (texts req) t (Exception name)) ∧
  (∀ e, analyze_sentiment_batch h req = Escape e
        ↔ ∃ p t name, h = Some p ∧ (1 ≤ length (texts req) ≤ 100)%nat ∧
                      e = BaseException name ∧
                      stops_at p (texts req) t (BaseException name)) ∧
  ((∃ body, analyze_sentiment_batch h req = Return body)
   ↔ ∃ p, h = Some p ∧ (1 ≤ length (texts req) ≤ 100)%nat ∧
          ∀ t, t ∈ texts req → blank t = false → answers p t) ∧
  ((∃ e, analyze_sentiment_batch h req = Escape e)
   ∨ http_status (analyze_sentiment_batch h req) ∈ [200; 400; 500; 503]%nat).
Proof.
  destruct (analyze_sentiment_batch_cases h req)
    as [(Hh & ->)|[(Hh & Ht & ->)|[(Hh & Ht & ->)
       |[(p & t & name & Hh & Hlen & Hstop & ->)
        |[(p & t & name & Hh & Hlen & Hstop & ->)
         |(p & body & Hh & Hlen & Hall & ->)]]]]];
    (split; [|split; [|split; [|split; [|split; [|split]]]]]);
    try (right; simpl; set_solver);
    try (left; eauto; fail).
  all: try (intros e; split; [discriminate|]).
  all: try (split; [discriminate|]).
  all: try (split; [|reflexivity || eauto]).
  all: try (split; [intros (? & ?); discriminate|]).
  all: try (intros _; eauto 10; fail).
  all: try (intros [= <-]; eauto 10; fail).
  all: intros HH; try congruence;
    decompose [and ex] HH; clear HH; simplify_eq;
    try contradiction;
    repeat match goal with
           | E : texts _ = [] |- _ => rewrite E in *; clear E
           end;
    try (simpl in *; lia);
    try match goal with
        | H1 : stops_at _ _ _ ?e1, H2 : stops_at _ _ _ ?e2 |- _ =>
            pose proof (stops_at_exception_unique _ _ _ _ _ _ H1 H2);
            simplify_eq; reflexivity
        | H1 : stops_at _ _ _ _ |- _ =>
            exfalso; apply (stops_at_not_answered _ _ _ _ H1); assumption
        end.
Qed.

Section BatchComposition.
Context {F : Type} `{!PyFloat F}.

(** The kept texts of a filtered list pass the filter. *)
Lemma Forall2_filter_kept {A B : Type} (f : A → bool) (R : A → B → Prop)
    (l : list A) (items : list B) :
  Forall2 R (List.filter f l) items →
  Forall2 (λ a b, f a = true ∧ R a b) (List.filter f l) items.
Proof.
  revert items. induction l as [|a l IH]; intros items; simpl.
  - intros Hnil. inversion Hnil. constructor.
  - destruct (f a) eqn:Ha; [|apply IH].
    intros Hcons. inversion Hcons; subst. constructor; [auto|]. by apply IH.
Qed.

(** The list the loop starts from is only ever extended. *)
Lemma batch_loop_acc (p : Pipeline F) ts acc :
  batch_loop p ts acc
  = match batch_loop p ts [] with
    | Val items => Val (acc ++ items)%list
    | Exn e => Exn e
    end.
Proof.
  revert acc. induction ts as [|t ts IH]; intros acc; simpl.
  - rewrite app_nil_r. reflexivity.
  - destruct (truthy t && (0 <? length (strip t))%nat); [|apply IH].
    destruct (p (take 512 t)) as [[|pred rest]|e]; simpl; try reflexivity.
    destruct (remap pred) as [lbl scs]. rewrite IH. symmetry. rewrite IH.
    destruct (batch_loop p ts []); [|reflexivity].
    rewrite <- app_assoc. reflexivity.
Qed.

(** Running the loop over two lists in a row is running it over their
    concatenation. *)
Lemma batch_loop_app (p : Pipeline F) ts1 ts2 acc :
  batch_loop p (ts1 ++ ts2) acc
  = match batch_loop p ts1 acc with
    | Val out => batch_loop p ts2 out
    | Exn e => Exn e
    end.
Proof.
  revert acc. induction ts1 as [|t ts1 IH]; intros acc; simpl.
  - reflexivity.
  - destruct (truthy t && (0 <? length (strip t))%nat); [|apply IH].
    destruct (p (take 512 t)) as [[|pred rest]|e]; simpl; try reflexivity.
    destruct (remap pred) as [lbl scs]. apply IH.
Qed.

(** Blank texts leave no trace in the loop. *)
Lemma batch_loop_filter (p : Pipeline F) ts acc :
  batch_loop p (List.filter (λ t, negb (blank t)) ts) acc
  = batch_loop p ts acc.
Proof.
  revert acc. induction ts as [|t ts IH]; intros acc; simpl; [reflexivity|].
  rewrite kept_not_blank. destruct (blank t) eqn:Hb; simpl; [apply IH|].
  rewrite kept_not_blank, Hb. simpl.
  destruct (p (take 512 t)) as [[|pred rest]|e]; simpl; try reflexivity.
  destruct (remap pred) as [lbl scs]. apply IH.
Qed.

(** The loop calls the model on the first 512 characters of the non-blank
    texts and on nothing else. *)
Lemma batch_loop_ext (p q : Pipeline F) ts acc :
  (∀ t, t ∈ ts → blank t = false → p (take 512 t) = q (take 512 t)) →
  batch_loop p ts acc = batch_loop q ts acc.
Proof.
  revert acc. induction ts as [|t ts IH]; intros acc Hpq; simpl;
    [reflexivity|].
  assert (∀ t', t' ∈ ts → blank t' = false
                → p (take 512 t') = q (take 512 t')) as Hpq'.
  { intros t' Ht'. apply Hpq. by right. }
  rewrite kept_not_blank. destruct (blank t) eqn:Hb; simpl; [by apply IH|].
  rewrite <- (Hpq t) by (by left || exact Hb).
  destruct (p (take 512 t)) as [[|pred rest]|e]; simpl; try reflexivity.
  destruct (remap pred) as [lbl scs]. by apply IH.
Qed.

End BatchComposition.

(** X3. "Process similar to single analysis": in every body the batch
    handler returns, the label, score and scores of an entry are those
    [POST /analyze] returns for the same text sent alone. *)
Theorem X3_batch_entry_agrees_with_single_analysis
    {F : Type} `{!PyFloat F} (h : option (Pipeline F))
    (req : BatchSentimentRequest) (body : BatchResponse F) :
  analyze_sentiment_batch h req = Return body →
  Forall2
    (λ t item, same_analysis (analyze_sentiment h {| text := t |}) item)
    (List.filter (λ t, negb (blank t)) (texts req)) (results body).
Proof.
  intros Hret.
  destruct (analyze_sentiment_batch_returned _ _ _ Hret)
    as (p & -> & _ & Hitems & _).
  apply Forall2_filter_kept in Hitems.
  eapply Forall2_impl; [exact Hitems|].
  intros t item (Hb & pred & rest & Hp & ->). unfold same_analysis.
  cbn [item_label item_score item_scores].
  apply (analyze_sentiment_returns p {| text := t |} pred rest); [|exact Hp].
  simpl. by destruct (blank t).
Qed.

Lemma X3_witness :
  Forall2
    (λ t item,
       same_analysis
         (analyze_sentiment (Some hesitant_model) {| text := t |}) item)
    (List.filter (λ t, negb (blank t)) [str_of "bad"; str_of " "])
    [{| item_text := str_of "bad"; item_label := "neutral";
        item_score := 0.55%Q;
        item_scores := {[ "positive" := 0.45%Q; "negative" := 0.55%Q;
                          "neutral" := 0.45%Q ]} |}].
Proof.
  apply (X3_batch_entry_agrees_with_single_analysis (Some hesitant_model)
           {| texts := [str_of "bad"; str_of " "] |}
           {| results :=
                [{| item_text := str_of "bad"; item_label := "neutral";
                    item_score := 0.55%Q;
                    item_scores :=
                      {[ "positive" := 0.45%Q; "negative" := 0.55%Q;
                         "neutral" := 0.45%Q ]} |}];
              total := 1 |}).
  vm_compute. reflexivity.
Defined.

(** X4. The model is shown the first [max_length] characters that
    [GET /model/info] reports and nothing beyond: two texts that are both
    blank or both not, and agree on those characters, get the same response
    from [POST /analyze]. *)
Theorem X4_analysis_reads_first_max_length_characters
    {F : Type} `{!PyFloat F} (h : option (Pipeline F)) (info : ModelInfo)
    (t1 t2 : str) :
  get_model_info h = Return info →
  blank t1 = blank t2 →
  take (max_length info) t1 = take (max_length info) t2 →
  analyze_sentiment h {| text := t1 |} = analyze_sentiment h {| text := t2 |}.
Proof.
  intros [= <-] Hb Ht. simpl in Ht. unfold analyze_sentiment.
  destruct h as [p|]; [|reflexivity]. simpl.
  rewrite !rejected_blank, Hb, Ht. reflexivity.
Qed.

Lemma X4_witness :
  analyze_sentiment (Some picky_model)
    {| text := (repeat 103%N 512 ++ str_of "x")%list |}
  = analyze_sentiment (Some picky_model)
      {| text := (repeat 103%N 512 ++ str_of "yz")%list |}.
Proof.
  apply (X4_analysis_reads_first_max_length_characters (Some picky_model)
           {| model_name :=
                "distilbert-base-uncased-finetuned-sst-2-english";
              model_type := "sentiment-analysis";
              labels := ["positive"; "negative"; "neutral"];
              max_length := 512; loaded := true |}).
  - reflexivity.
  - reflexivity.
  - reflexivity.
Defined.

(** X5. The batch handler calls the model on the first 512 characters of
    the non-blank texts and on nothing else: two models that agree there
    give the same response, whatever they do on blank texts or on anything
    longer. *)
Theorem X5_batch_depends_on_model_only_through_kept_prefixes
    {F : Type} `{!PyFloat F} (p q : Pipeline F)
    (req : BatchSentimentRequest) :
  (∀ t, t ∈ texts req → blank t = false → p (take 512 t) = q (take 512 t)) →
  analyze_sentiment_batch (Some p) req = analyze_sentiment_batch (Some q) req.
Proof.
  intros Hpq. unfold analyze_sentiment_batch.
  rewrite (batch_loop_ext p q (texts req) [] Hpq). reflexivity.
Qed.

Lemma X5_witness :
  analyze_sentiment_batch (Some picky_model)
    {| texts := [str_of "good"; str_of "  "] |}
  = analyze_sentiment_batch (Some confident_model)
      {| texts := [str_of "good"; str_of "  "] |}.
Proof.
  apply (X5_batch_depends_on_model_only_through_kept_prefixes
           picky_model confident_model
           {| texts := [str_of "good"; str_of "  "] |}).
  intros t Ht Hb. simpl in Ht.
  repeat (apply elem_of_cons in Ht as [->|Ht]); try discriminate Hb.
  - reflexivity.
  - by apply elem_of_nil in Ht.
Defined.

(** X6. Blank texts only count towards the size limits: a batch of at most
    100 texts with at least one non-blank text gets the response of the same
    batch with its blank texts removed. *)
Theorem X6_blank_texts_change_nothing
    {F : Type} `{!PyFloat F} (h : option (Pipeline F))
    (req : BatchSentimentRequest) :
  (length (texts req) ≤ 100)%nat →
  (∃ t, t ∈ texts req ∧ blank t = false) →
  analyze_sentiment_batch h req
  = analyze_sentiment_batch h
      {| texts := List.filter (λ t, negb (blank t)) (texts req) |}.
Proof.
  intros Hlen (t & Ht & Hb).
  destruct h as [p|]; [|reflexivity].
  assert (t ∈ List.filter (λ t, negb (blank t)) (texts req)) as Hkept.
  { apply list_elem_of_In, filter_In. split; [by apply list_elem_of_In|].
    rewrite Hb. reflexivity. }
  pose proof (filter_length_le (λ t, negb (blank t)) (texts req)) as Hle.
  rewrite !analyze_sentiment_batch_accepted.
  - cbn [texts]. rewrite batch_loop_filter. reflexivity.
  - cbn [texts]. split; [|lia].
    destruct (List.filter _ (texts req));
      [by apply elem_of_nil in Hkept | simpl; lia].
  - split; [|exact Hlen].
    destruct (texts req); [by apply elem_of_nil in Ht | simpl; lia].
Qed.

Lemma X6_witness :
  analyze_sentiment_batch (Some confident_model)
    {| texts := [str_of ""; str_of "good"; str_of "  "; str_of "bad"] |}
  = analyze_sentiment_batch (Some confident_model)
      {| texts :=
           List.filter (λ t, negb (blank t))
             [str_of ""; str_of "good"; str_of "  "; str_of "bad"] |}.
Proof.
  apply (X6_blank_texts_change_nothing (Some confident_model)
           {| texts := [str_of ""; str_of "good"; str_of "  ";
                        str_of "bad"] |}).
  - simpl. lia.
  - exists (str_of "good"). split; [|reflexivity].
    simpl. right. by left.
Defined.

(** X7. Batches compose: when two batches are each answered with a body and
    together hold at most 100 texts, sending them as one batch is answered
    with the first body's results followed by the second's, and the sum of
    the totals. *)
Theorem X7_batches_concatenate
    {F : Type} `{!PyFloat F} (h : option (Pipeline F))
    (ts1 ts2 : list str) (b1 b2 : BatchResponse F) :
  analyze_sentiment_batch h {| texts := ts1 |} = Return b1 →
  analyze_sentiment_batch h {| texts := ts2 |} = Return b2 →
  (length (ts1 ++ ts2) ≤ 100)%nat →
  analyze_sentiment_batch h {| texts := (ts1 ++ ts2)%list |}
  = Return {| results := (results b1 ++ results b2)%list;
              total := total b1 + total b2 |}.
Proof.
  intros H1 H2 Hlen.
  destruct (analyze_sentiment_batch_returned _ _ _ H1)
    as (p & -> & Hlen1 & _ & _).
  destruct (analyze_sentiment_batch_returned _ _ _ H2)
    as (_ & _ & Hlen2 & _ & _).
  cbn [texts] in Hlen1, Hlen2.
  rewrite analyze_sentiment_batch_accepted in H1, H2 by (cbn [texts]; lia).
  rewrite analyze_sentiment_batch_accepted
    by (cbn [texts]; rewrite length_app in *; lia).
  cbn [texts] in *. rewrite batch_loop_app.
  destruct (batch_loop p ts1 []) as [out1|e1];
    [|destruct e1; discriminate H1].
  rewrite batch_loop_acc.
  destruct (batch_loop p ts2 []) as [out2|e2];
    [|destruct e2; discriminate H2].
  simpl in *. injection H1 as <-. injection H2 as <-. simpl.
  rewrite length_app. reflexivity.
Qed.

Lemma X7_witness :
  analyze_sentiment_batch (Some confident_model)
    {| texts := ([str_of "good"; str_of " "] ++ [str_of "bad"])%list |}
  = Return
      {| results :=
           ([{| item_text := str_of "good"; item_label := "positive";
                item_score := 0.95%Q;
                item_scores := class_scores "POSITIVE" 0.95%Q |}]
            ++ [{| item_text := str_of "bad"; item_label := "positive";
                   item_score := 0.95%Q;
                   item_scores := class_scores "POSITIVE" 0.95%Q |}])%list;
         total := 1 + 1 |}.
Proof.
  apply (X7_batches_concatenate (Some confident_model)
           [str_of "good"; str_of " "] [str_of "bad"]
           {| results :=
                [{| item_text := str_of "good"; item_label := "positive";
                    item_score := 0.95%Q;
                    item_scores := class_scores "POSITIVE" 0.95%Q |}];
              total := 1 |}
           {| results :=
                [{| item_text := str_of "bad"; item_label := "positive";
                    item_score := 0.95%Q;
                    item_scores := class_scores "POSITIVE" 0.95%Q |}];
              total := 1 |}).
  - vm_compute. reflexivity.
  - vm_compute. reflexivity.
  - simpl. lia.
Defined.

Section RemapInvariants.
Context {F : Type} `{!PyFloat F}.

(** A returned body of [analyze_sentiment] is the remapped first prediction
    of a loaded model on a non-blank text. *)
Lemma analyze_sentiment_returned (h : option (Pipeline F)) req r :
  analyze_sentiment h req = Return r →
  ∃ p pred rest,
    h = Some p ∧ blank (text req) = false ∧
    p (take 512 (text req)) = Val (pred :: rest) ∧
    r = {| label := (remap pred).1; score := raw_score pred;
           scores := (remap pred).2 |}.
Proof.
  intros Hret.
  destruct (analyze_sentiment_cases h req)
    as [(_ & E)|[(_ & _ & E)|[(? & ? & _ & _ & _ & E)
       |[(? & ? & _ & _ & _ & E)|(p & pred & rest & -> & Hb & Hp & E)]]]];
    rewrite E in Hret; try discriminate.
  injection Hret as <-. exists p, pred, rest. auto.
Qed.

(** The remapped label is one of three names, the dictionary has exactly
    those three keys, and so holds an entry for the label. *)
Lemma remap_label_and_keys (pred : Prediction F) :
  (remap pred).1 ∈ ["positive"; "negative"; "neutral"] ∧
  dom (remap pred).2 = list_to_set ["positive"; "negative"; "neutral"] ∧
  is_Some ((remap pred).2 !! (remap pred).1).
Proof.
  unfold remap.
  destruct (String.eqb (raw_label pred) "POSITIVE"),
    (flt (raw_score pred) f0_6); cbn [fst snd];
    (split; [set_solver|]);
    (split; [rewrite ?dom_insert_L, dom_singleton_L; set_solver|]);
    by simplify_map_eq.
Qed.

End RemapInvariants.

(** X8. Every label the POST handlers report is one of the labels
    [GET /model/info] lists, and every [scores] dictionary has exactly those
    labels as keys, so it holds an entry for the reported label; this for
    the body of [POST /analyze] and for each entry of a batch body. *)
Theorem X8_labels_are_those_of_model_info :
  (∀ {F : Type} `{!PyFloat F} (h : option (Pipeline F))
     (req : SentimentRequest) (r : SentimentResponse F) (info : ModelInfo),
     analyze_sentiment h req = Return r →
     get_model_info h = Return info →
     label r ∈ labels info ∧
     dom (scores r) = list_to_set (labels info) ∧
     is_Some (scores r !! label r))
  ∧
  (∀ {F : Type} `{!PyFloat F} (h : option (Pipeline F))
     (req : BatchSentimentRequest) (body : BatchResponse F)
     (info : ModelInfo),
     analyze_sentiment_batch h req = Return body →
     get_model_info h = Return info →
     Forall (λ item,
               item_label item ∈ labels info ∧
               dom (item_scores item) = list_to_set (labels info) ∧
               is_Some (item_scores item !! item_label item))
       (results body)).
Proof.
  split.
  - intros F HF h req r info Hret [= <-].
    destruct (analyze_sentiment_returned h req r Hret)
      as (p & pred & rest & _ & _ & _ & ->).
    exact (remap_label_and_keys pred).
  - intros F HF h req body info Hret [= <-].
    destruct (analyze_sentiment_batch_returned _ _ _ Hret)
      as (p & _ & _ & Hitems & _).
    revert Hitems. generalize (results body).
    generalize (List.filter (λ t, negb (blank t)) (texts req)).
    induction 1 as [|t item ts items (pred & rest & _ & ->) _ IH];
      constructor; [|exact IH].
    exact (remap_label_and_keys pred).
Qed.

Lemma X8_witness :
  label {| label := "neutral"; score := 0.55%Q;
           scores := {[ "positive" := 0.45%Q; "negative" := 0.55%Q;
                        "neutral" := 0.45%Q ]} |}
    ∈ ["positive"; "negative"; "neutral"] ∧
  dom (scores {| label := "neutral"; score := 0.55%Q;
                 scores := {[ "positive" := 0.45%Q; "negative" := 0.55%Q;
                              "neutral" := 0.45%Q ]} |})
    = list_to_set ["positive"; "negative"; "neutral"] ∧
  is_Some
    (scores {| label := "neutral"; score := 0.55%Q;
               scores := {[ "positive" := 0.45%Q; "negative" := 0.55%Q;
                            "neutral" := 0.45%Q ]} |}
     !! label {| label := "neutral"; score := 0.55%Q;
                 scores := {[ "positive" := 0.45%Q; "negative" := 0.55%Q;
                              "neutral" := 0.45%Q ]} |}).
Proof.
  apply (proj1 X8_labels_are_those_of_model_info Q exact
           (Some hesitant_model) {| text := str_of "bad" |} _
           {| model_name :=
                "distilbert-base-uncased-finetuned-sst-2-english";
              model_type := "sentiment-analysis";
              labels := ["positive"; "negative"; "neutral"];
              max_length := 512; loaded := true |}).
  - vm_compute. reflexivity.
  - reflexivity.
Defined.

(** Every entry of the dictionary of steps 1 and 2 is the confidence, one
    minus the confidence, or zero. *)
Lemma class_scores_values {F : Type} `{!PyFloat F} rawLabel (c : F) k v :
  class_scores rawLabel c !! k = Some v →
  (k = class_name rawLabel ∧ v = c) ∨
  (k = other_class (class_name rawLabel) ∧ v = fsub f1 c) ∨
  (k = "neutral" ∧ v = f0_0).
Proof.
  unfold class_scores, class_name, other_class.
  destruct (String.eqb rawLabel "POSITIVE"); simpl; intros Hk;
    apply lookup_insert_Some in Hk as [[<- <-]|[_ Hk]]; auto;
    apply lookup_insert_Some in Hk as [[<- <-]|[_ Hk]]; auto;
    apply lookup_singleton_Some in Hk as [<- <-]; auto.
Qed.

(** X9. In exact arithmetic a confidence in [0,1] gives a response whose
    score and whose every [scores] entry lie in [0,1], in both branches of
    the threshold test. *)
Theorem X9_scores_stay_in_unit_interval
    (p : Pipeline Q) (req : SentimentRequest)
    (rawLabel : string) (confidence : Q) (rest : list (Prediction Q)) :
  blank (text req) = false →
  p (take 512 (text req))
    = Val ({| raw_label := rawLabel; raw_score := confidence |} :: rest) →
  (0 <= confidence <= 1)%Q →
  ∃ r, analyze_sentiment (Some p) req = Return r ∧
    (0 <= score r <= 1)%Q ∧
    ∀ k v, scores r !! k = Some v → (0 <= v <= 1)%Q.
Proof.
  intros Hb Hp Hc. eexists. split.
  { apply (analyze_sentiment_returns p req _ rest Hb Hp). }
  cbn [score scores raw_score]. split; [exact Hc|].
  assert (∀ k v, class_scores rawLabel confidence !! k = Some v
                → (0 <= v <= 1)%Q) as Hbase.
  { intros k v Hk.
    destruct (class_scores_values rawLabel confidence k v Hk)
      as [[_ ->]|[[_ ->]|[_ ->]]]; simpl; lra. }
  destruct (flt confidence f0_6) eqn:Hlt.
  - rewrite (remap_unsure rawLabel confidence Hlt). cbn [snd].
    intros k v Hk. apply lookup_insert_Some in Hk as [[_ <-]|[_ Hk]].
    + simpl. lra.
    + by apply (Hbase k).
  - rewrite (remap_confident rawLabel confidence Hlt). exact Hbase.
Qed.

Lemma X9_witness :
  ∃ r, analyze_sentiment (Some hesitant_model) {| text := str_of "bad" |}
       = Return r ∧
    (0 <= score r <= 1)%Q ∧
    ∀ k v, scores r !! k = Some v → (0 <= v <= 1)%Q.
Proof.
  apply (X9_scores_stay_in_unit_interval
           hesitant_model {| text := str_of "bad" |} "NEGATIVE" 0.55%Q []).
  - reflexivity.
  - reflexivity.
  - unfold Qle. simpl. lia.
Defined.

(** X10. In exact arithmetic, for a confidence above one half and below 0.6
    the reported label "neutral" is not the best-scored class: its entry
    equals the entry of the class the model did not predict, and is strictly
    below the entry of the class it did predict. *)
Theorem X10_forced_neutral_is_not_the_top_score
    (p : Pipeline Q) (req : SentimentRequest)
    (rawLabel : string) (confidence : Q) (rest : list (Prediction Q)) :
  blank (text req) = false →
  p (take 512 (text req))
    = Val ({| raw_label := rawLabel; raw_score := confidence |} :: rest) →
  (0.5 < confidence)%Q →
  (confidence < 0.6)%Q →
  ∃ r own predicted,
    analyze_sentiment (Some p) req = Return r ∧
    label r = "neutral" ∧
    scores r !! label r = Some own ∧
    scores r !! other_class (class_name rawLabel) = Some own ∧
    scores r !! class_name rawLabel = Some predicted ∧
    (own < predicted)%Q.
Proof.
  intros Hb Hp Hhalf Hc. eexists _, (1 - confidence)%Q, confidence. split.
  { apply (analyze_sentiment_returns p req _ rest Hb Hp). }
  apply exact_below_threshold in Hc.
  rewrite (remap_unsure rawLabel confidence Hc). cbn [label scores fst snd].
  split; [reflexivity|]. split; [by simplify_map_eq|].
  assert (class_name rawLabel ≠ "neutral"
          ∧ other_class (class_name rawLabel) ≠ "neutral") as [Hn1 Hn2].
  { unfold class_name, other_class.
    destruct (String.eqb rawLabel "POSITIVE"); split; discriminate. }
  rewrite !lookup_insert_ne by done.
  split; [exact (class_scores_other rawLabel confidence)|].
  split; [exact (class_scores_predicted rawLabel confidence)|].
  lra.
Qed.

Lemma X10_witness :
  ∃ r own predicted,
    analyze_sentiment (Some hesitant_model) {| text := str_of "bad" |}
      = Return r ∧
    label r = "neutral" ∧
    scores r !! label r = Some own ∧
    scores r !! other_class (class_name "NEGATIVE") = Some own ∧
    scores r !! class_name "NEGATIVE" = Some predicted ∧
    (own < predicted)%Q.
Proof.
  apply (X10_forced_neutral_is_not_the_top_score
           hesitant_model {| text := str_of "bad" |} "NEGATIVE" 0.55%Q []).
  - reflexivity.
  - reflexivity.
  - unfold Qlt. simpl. lia.
  - unfold Qlt. simpl. lia.
Defined.

(** X11. In exact arithmetic, for a confidence of at least 0.6 the reported
    label is the one best-scored class: its entry is the confidence and
    every other entry is strictly smaller. *)
Theorem X11_confident_label_is_the_top_score
    (p : Pipeline Q) (req : SentimentRequest)
    (rawLabel : string) (confidence : Q) (rest : list (Prediction Q)) :
  blank (text req) = false →
  p (take 512 (text req))
    = Val ({| raw_label := rawLabel; raw_score := confidence |} :: rest) →
  (0.6 <= confidence)%Q →
  ∃ r, analyze_sentiment (Some p) req = Return r ∧
    scores r !! label r = Some confidence ∧
    ∀ k v, k ≠ label r → scores r !! k = Some v → (v < confidence)%Q.
Proof.
  intros Hb Hp Hc. eexists. split.
  { apply (analyze_sentiment_returns p req _ rest Hb Hp). }
  pose proof Hc as Hc'. apply exact_reaches_threshold in Hc'.
  rewrite (remap_confident rawLabel confidence Hc'). cbn [label scores fst snd].
  split; [exact (class_scores_predicted rawLabel confidence)|].
  intros k v Hne Hk.
  destruct (class_scores_values rawLabel confidence k v Hk)
    as [[-> _]|[[_ ->]|[_ ->]]]; [contradiction | simpl; lra | simpl; lra].
Qed.

Lemma X11_witness :
  ∃ r, analyze_sentiment (Some confident_model) {| text := str_of "good" |}
       = Return r ∧
    scores r !! label r = Some 0.95%Q ∧
    ∀ k v, k ≠ label r → scores r !! k = Some v → (v < 0.95)%Q.
Proof.
  apply (X11_confident_label_is_the_top_score
           confident_model {| text := str_of "good" |} "POSITIVE" 0.95%Q []).
  - reflexivity.
  - reflexivity.
  - unfold Qle. simpl. lia.
Defined.

(** X12. Start-up and the probes. The module-level block binds a handle
    unless the model constructor raises an exception that is not an
    instance of [Exception], which ends the import. Once a handle is bound,
    the two GET routes answer 200 and report the same flag; the flag is
    true exactly when the constructor returned a model and false exactly
    when it raised an instance of [Exception]; and it is false exactly when
    [POST /analyze] and [POST /analyze/batch] answer 503 "Model not
    loaded", for every request. *)
Theorem X12_probes_agree_with_post_routes
    {F : Type} `{!PyFloat F} (constructed : Exc (Pipeline F)) :
  (∀ e, sentiment_pipeline_init constructed = Exn e
        ↔ constructed = Exn e ∧ ∃ name, e = BaseException name) ∧
  (∀ h, sentiment_pipeline_init constructed = Val h →
     ∃ health info,
       health_check h = Return health ∧
       get_model_info h = Return info ∧
       model_loaded health = loaded info ∧
       (model_loaded health = true ↔ ∃ p, constructed = Val p) ∧
       (model_loaded health = false
        ↔ ∃ name, constructed = Exn (Exception name)) ∧
       (∀ req,
          model_loaded health = false
          ↔ analyze_sentiment h req
            = Raise {| status_code := 503; detail := "Model not loaded" |}) ∧
       (∀ req,
          model_loaded health = false
          ↔ analyze_sentiment_batch h req
            = Raise {| status_code := 503;
                       detail := "Model not loaded" |})).
Proof.
  split.
  - intros e. destruct constructed as [p|[name|name]]; simpl; split.
    + discriminate.
    + intros [? _]. discriminate.
    + discriminate.
    + intros [[= <-] (? & ?)]. discriminate.
    + intros [= <-]. eauto.
    + intros [[= <-] _]. reflexivity.
  - intros h Hinit. eexists _, _.
    split; [reflexivity|]. split; [reflexivity|].
    cbn [model_loaded loaded]. split; [reflexivity|].
    destruct constructed as [p|[name|name]]; simpl in Hinit;
      [injection Hinit as <- | injection Hinit as <- | discriminate].
    + split; [split; [eauto | reflexivity]|].
      split; [split; [discriminate | intros (? & ?); discriminate]|].
      split; intros req; (split; [discriminate|]); intros Hs; exfalso.
      * destruct (analyze_sentiment_cases (Some p) req)
          as [(? & _)|[(_ & _ & E)|[(? & ? & _ & _ & _ & E)
             |[(? & ? & _ & _ & _ & E)|(? & ? & ? & _ & _ & _ & E)]]]];
          [discriminate|..]; rewrite E in Hs; discriminate.
      * destruct (analyze_sentiment_batch_cases (Some p) req)
          as [(? & _)|[(_ & _ & E)|[(_ & _ & E)
             |[(? & ? & ? & _ & _ & _ & E)|[(? & ? & ? & _ & _ & _ & E)
              |(? & ? & _ & _ & _ & E)]]]]];
          [discriminate|..]; rewrite E in Hs; discriminate.
    + split; [split; [discriminate | intros (? & ?); discriminate]|].
      split; [split; [eauto | reflexivity]|].
      split; intros req; split; reflexivity.
Qed.

Lemma X12_witness :
  ∃ health info,
    health_check (F:=Q) None = Return health ∧
    get_model_info (F:=Q) None = Return info ∧
    model_loaded health = loaded info ∧
    (model_loaded health = true
     ↔ ∃ p : Pipeline Q, Exn (Exception "OSError") = Val p) ∧
    (model_loaded health = false
     ↔ ∃ name, @Exn (Pipeline Q) (Exception "OSError")
               = Exn (Exception name)) ∧
    (∀ req,
       model_loaded health = false
       ↔ analyze_sentiment (F:=Q) None req
         = Raise {| status_code := 503; detail := "Model not loaded" |}) ∧
    (∀ req,
       model_loaded health = false
       ↔ analyze_sentiment_batch (F:=Q) None req
         = Raise {| status_code := 503; detail := "Model not loaded" |}).
Proof.
  apply (proj2 (X12_probes_agree_with_post_routes (F:=Q)
                  (Exn (Exception "OSError"))) None).
  reflexivity.
Defined.

(** ** The echoed text *)

Lemma echoed_cases (t : str) :
  ((100 < length t)%nat ∧ echoed t = (take 100 t ++ str_of "...")%list
   ∧ length (echoed t) = 103%nat)
  ∨ ((length t ≤ 100)%nat ∧ echoed t = t).
Proof.
  unfold echoed. destruct (Nat.ltb_spec 100 (length t)) as [Hlong|Hshort].
  - left. repeat split; [exact Hlong|].
    rewrite length_app, length_take.
    change (length (str_of "...")) with 3%nat. lia.
  - right. auto.
Qed.

Lemma echoed_take (t : str) : take 100 (echoed t) = take 100 t.
Proof.
  destruct (echoed_cases t) as [(Hlong & -> & _)|(_ & ->)]; [|reflexivity].
  rewrite take_app_le by (rewrite length_take; lia).
  rewrite take_take. f_equal.
Qed.

Lemma echoed_idempotent (t : str) : echoed (echoed t) = echoed t.
Proof.
  destruct (echoed_cases t) as [(Hlong & E & Hlen)|(Hshort & E)].
  - destruct (echoed_cases (echoed t)) as [(_ & E' & _)|(Hle & _)]; [|lia].
    rewrite E', echoed_take. symmetry. exact E.
  - rewrite E. exact E.
Qed.

Lemma echoed_not_blank (t : str) : blank t = false → blank (echoed t) = false.
Proof.
  intros Hb.
  destruct (echoed_cases t) as [(_ & -> & _)|(_ & ->)]; [|exact Hb].
  rewrite blank_forallb, forallb_app. apply andb_false_r.
Qed.

Lemma filter_none {A : Type} (f : A → bool) (l : list A) :
  List.filter f l = [] ↔ ∀ a, a ∈ l → f a = false.
Proof.
  induction l as [|a l IH]; simpl.
  - split; [intros _ a Ha; by apply elem_of_nil in Ha | reflexivity].
  - destruct (f a) eqn:Ha; split.
    + discriminate.
    + intros Hall. rewrite (Hall a) in Ha by (by left). discriminate.
    + intros Hnil b Hb. apply elem_of_cons in Hb as [->|Hb]; [exact Ha|].
      by apply IH.
    + intros Hall. apply IH. intros b Hb. apply Hall. by right.
Qed.

(** X13. In every body the batch handler returns, [total] is the number of
    non-blank input texts: it is the length of [results], never more than
    the number of texts sent nor than 100, and zero exactly when every text
    is blank. *)
Theorem X13_total_counts_non_blank_texts
    {F : Type} `{!PyFloat F} (h : option (Pipeline F))
    (req : BatchSentimentRequest) (body : BatchResponse F) :
  analyze_sentiment_batch h req = Return body →
  total body = length (List.filter (λ t, negb (blank t)) (texts req)) ∧
  length (results body) = total body ∧
  (total body ≤ length (texts req) ≤ 100)%nat ∧
  (total body = 0%nat ↔ ∀ t, t ∈ texts req → blank t = true).
Proof.
  intros Hret.
  destruct (analyze_sentiment_batch_returned _ _ _ Hret)
    as (p & _ & Hlen & Hitems & Htotal).
  apply Forall2_length in Hitems.
  pose proof (filter_length_le (λ t, negb (blank t)) (texts req)) as Hle.
  rewrite Htotal, <- Hitems.
  split; [reflexivity|]. split; [reflexivity|]. split; [lia|].
  rewrite length_zero_iff_nil, filter_none.
  split; intros Hall t Ht; specialize (Hall t Ht).
  - by destruct (blank t).
  - rewrite Hall. reflexivity.
Qed.

Lemma X13_witness :
  total {| results :=
             [{| item_text := str_of "good"; item_label := "positive";
                 item_score := 0.95%Q;
                 item_scores := class_scores "POSITIVE" 0.95%Q |}];
           total := 1 |}
  = length (List.filter (λ t, negb (blank t)) [str_of "good"; str_of " "]) ∧
  length (results
            {| results :=
                 [{| item_text := str_of "good"; item_label := "positive";
                     item_score := 0.95%Q;
                     item_scores := class_scores "POSITIVE" 0.95%Q |}];
               total := 1 |})
  = total {| results :=
               [{| item_text := str_of "good"; item_label := "positive";
                   item_score := 0.95%Q;
                   item_scores := class_scores "POSITIVE" 0.95%Q |}];
             total := 1 |} ∧
  (total {| results :=
              [{| item_text := str_of "good"; item_label := "positive";
                  item_score := 0.95%Q;
                  item_scores := class_scores "POSITIVE" 0.95%Q |}];
            total := 1 |}
   ≤ length [str_of "good"; str_of " "] ≤ 100)%nat ∧
  (total {| results :=
              [{| item_text := str_of "good"; item_label := "positive";
                  item_score := 0.95%Q;
                  item_scores := class_scores "POSITIVE" 0.95%Q |}];
            total := 1 |} = 0%nat
   ↔ ∀ t, t ∈ [str_of "good"; str_of " "] → blank t = true).
Proof.
  apply (X13_total_counts_non_blank_texts (Some confident_model)
           {| texts := [str_of "good"; str_of " "] |}).
  vm_compute. reflexivity.
Defined.

(** X14. In every body the batch handler returns, the echoed text of an
    entry has at most 103 characters, agrees with the input text on its
    first 100 characters, is never blank, and is left unchanged when it is
    cut again. *)
Theorem X14_echoed_text_is_bounded_and_stable
    {F : Type} `{!PyFloat F} (h : option (Pipeline F))
    (req : BatchSentimentRequest) (body : BatchResponse F) :
  analyze_sentiment_batch h req = Return body →
  Forall2
    (λ t item,
       (length (item_text item) ≤ 103)%nat ∧
       take 100 (item_text item) = take 100 t ∧
       blank (item_text item) = false ∧
       (if (100 <? length (item_text item))%nat
        then (take 100 (item_text item) ++ str_of "...")%list
        else item_text item) = item_text item)
    (List.filter (λ t, negb (blank t)) (texts req)) (results body).
Proof.
  intros Hret.
  destruct (analyze_sentiment_batch_returned _ _ _ Hret)
    as (p & _ & _ & Hitems & _).
  apply Forall2_filter_kept in Hitems.
  eapply Forall2_impl; [exact Hitems|].
  intros t item (Hb & pred & rest & _ & ->). cbn [item_text].
  split; [destruct (echoed_cases t) as [(_ & _ & ->)|(? & ->)]; lia|].
  split; [apply echoed_take|].
  split; [apply echoed_not_blank; by destruct (blank t)|].
  exact (echoed_idempotent t).
Qed.

Lemma X14_witness :
  Forall2
    (λ t item,
       (length (item_text item) ≤ 103)%nat ∧
       take 100 (item_text item) = take 100 t ∧
       blank (item_text item) = false ∧
       (if (100 <? length (item_text item))%nat
        then (take 100 (item_text item) ++ str_of "...")%list
        else item_text item) = item_text item)
    (List.filter (λ t, negb (blank t)) [repeat 120%N 150; str_of "  "])
    [{| item_text := (repeat 120%N 100 ++ str_of "...")%list;
        item_label := "positive"; item_score := 0.95%Q;
        item_scores := class_scores "POSITIVE" 0.95%Q |}].
Proof.
  apply (X14_echoed_text_is_bounded_and_stable (Some confident_model)
           {| texts := [repeat 120%N 150; str_of "  "] |}
           {| results :=
                [{| item_text := (repeat 120%N 100 ++ str_of "...")%list;
                    item_label := "positive"; item_score := 0.95%Q;
                    item_scores := class_scores "POSITIVE" 0.95%Q |}];
              total := 1 |}).
  vm_compute. reflexivity.
Defined.

(** ** What stripping removes *)

Section StripShape.
Context {A : Type} (P : A → bool).

Lemma lstrip_by_split (s : list A) :
  ∃ l, s = (l ++ lstrip_by P s)%list ∧ forallb P l = true.
Proof.
  induction s as [|a s (l & Hs & Hl)]; simpl.
  - exists []. auto.
  - destruct (P a) eqn:Ha.
    + exists (a :: l). simpl. rewrite Ha, Hl, <- Hs. auto.
    + exists []. auto.
Qed.

Lemma rstrip_by_split (s : list A) :
  ∃ r, s = (rstrip_by P s ++ r)%list ∧ forallb P r = true.
Proof.
  unfold rstrip_by. destruct (lstrip_by_split (rev s)) as (l & Hs & Hl).
  exists (rev l). rewrite forallb_rev. split; [|exact Hl].
  rewrite <- rev_app_distr, <- Hs, rev_involutive. reflexivity.
Qed.

Lemma rstrip_by_last (s s' : list A) c :
  rstrip_by P s = (s' ++ [c])%list → P c = false.
Proof.
  unfold rstrip_by. intros E.
  apply (f_equal (@rev A)) in E.
  rewrite rev_involutive, rev_app_distr in E. simpl in E.
  exact (lstrip_by_head P _ _ _ E).
Qed.

Lemma lstrip_by_fixed (s : list A) :
  (∀ c s', s = c :: s' → P c = false) → lstrip_by P s = s.
Proof.
  destruct s as [|a s]; [reflexivity|]. intros Hhead. simpl.
  rewrite (Hhead a s eq_refl). reflexivity.
Qed.

Lemma rstrip_by_fixed (s : list A) :
  (∀ s' c, s = (s' ++ [c])%list → P c = false) → rstrip_by P s = s.
Proof.
  intros Hlast. unfold rstrip_by. rewrite lstrip_by_fixed.
  - apply rev_involutive.
  - intros c s' E. apply (Hlast (rev s')).
    apply (f_equal (@rev A)) in E. rewrite rev_involutive in E.
    exact E.
Qed.

Lemma strip_by_head (s : list A) c s' :
  strip_by P s = c :: s' → P c = false.
Proof.
  unfold strip_by. intros E.
  destruct (rstrip_by_split (lstrip_by P s)) as (r & Hs & _).
  rewrite E in Hs. exact (lstrip_by_head P s c _ Hs).
Qed.

Lemma strip_by_idempotent (s : list A) :
  strip_by P (strip_by P s) = strip_by P s.
Proof.
  unfold strip_by at 1. rewrite lstrip_by_fixed.
  - apply rstrip_by_fixed. intros s' c. apply rstrip_by_last.
  - intros c s'. apply strip_by_head.
Qed.

End StripShape.

(** X15. The stripped text the handlers measure is the input without a
    whitespace-only prefix and a whitespace-only suffix, and those are
    maximal: what is left neither starts nor ends with whitespace, and
    stripping it again changes nothing. *)
Theorem X15_strip_removes_surrounding_whitespace_only (t : str) :
  (∃ before after,
     t = (before ++ strip t ++ after)%list ∧
     forallb isspace before = true ∧ forallb isspace after = true) ∧
  (∀ c rest, strip t = c :: rest → isspace c = false) ∧
  (∀ rest c, strip t = (rest ++ [c])%list → isspace c = false) ∧
  strip (strip t) = strip t.
Proof.
  unfold strip. split; [|split; [|split]].
  - destruct (lstrip_by_split isspace t) as (l & Hl & Hlsp).
    destruct (rstrip_by_split isspace (lstrip_by isspace t))
      as (r & Hr & Hrsp).
    exists l, r. split; [|auto]. unfold strip_by.
    rewrite <- Hr. exact Hl.
  - intros c rest. apply strip_by_head.
  - intros rest c. unfold strip_by. apply rstrip_by_last.
  - apply strip_by_idempotent.
Qed.

(** ** The threshold test on binary64 *)

(** Only a NaN differs from itself. *)
Lemma SFeqb_irrefl_nan (x : spec_float) :
  SFeqb x x = false → x = S754_nan.
Proof.
  unfold SFeqb. destruct x as [s|s| |s m e]; simpl; try reflexivity;
    try (destruct s; discriminate).
  destruct s; rewrite Z.compare_refl, Pos.compare_cont_refl; discriminate.
Qed.

(** A NaN confidence fails the test [score < 0.6]. *)
Lemma binary64_nan_fails_threshold (c : float) :
  (c =? c)%float = false → flt c f0_6 = false.
Proof.
  rewrite FloatAxioms.eqb_spec. intros Hnan%SFeqb_irrefl_nan.
  simpl. rewrite ltb_spec, Hnan. reflexivity.
Qed.

(** Every float is below the float [0.6], at least it, or a NaN. *)
Lemma binary64_threshold_cases (c : float) :
  (c <? 0.6)%float = true ∨ (0.6 <=? c)%float = true
  ∨ (c =? c)%float = false.
Proof.
  rewrite ltb_spec, leb_spec, FloatAxioms.eqb_spec.
  unfold SFltb, SFleb.
  rewrite (SFcompare_antisym (Prim2SF c) (Prim2SF 0.6)).
  assert (∃ m e, Prim2SF 0.6 = S754_finite false m e) as (m & e & ->).
  { eexists _, _. vm_compute. reflexivity. }
  destruct (Prim2SF c) as [s|s| |s m' e']; simpl; auto.
  - destruct s; auto.
  - destruct s; auto.
    destruct (e' ?= e)%Z; auto.
    destruct (Pos.compare_cont Eq m' m); auto.
Qed.

(** X16. On binary64, the arithmetic the service runs on, the response of
    [POST /analyze] is forced to "neutral", with the neutral entry set to
    [1 - score], exactly for a confidence that compares below the float
    0.6; a confidence that compares at least 0.6, and also a NaN, keeps the
    model's class and the dictionary of steps 1 and 2; every float is in
    one of these three cases, and the score is reported unchanged. *)
Theorem X16_binary64_threshold
    (p : Pipeline float) (req : SentimentRequest)
    (rawLabel : string) (confidence : float)
    (rest : list (Prediction float)) :
  blank (text req) = false →
  p (take 512 (text req))
    = Val ({| raw_label := rawLabel; raw_score := confidence |} :: rest) →
  ∃ r, analyze_sentiment (Some p) req = Return r ∧
    score r = confidence ∧
    ((confidence <? 0.6)%float = true →
       label r = "neutral" ∧
       scores r = <["neutral" := (1 - confidence)%float]>
                    (class_scores rawLabel confidence)) ∧
    ((0.6 <=? confidence)%float = true
     ∨ (confidence =? confidence)%float = false →
       label r = class_name rawLabel ∧
       scores r = class_scores rawLabel confidence) ∧
    ((confidence <? 0.6)%float = true
     ∨ (0.6 <=? confidence)%float = true
     ∨ (confidence =? confidence)%float = false).
Proof.
  intros Hb Hp. eexists. split.
  { apply (analyze_sentiment_returns p req _ rest Hb Hp). }
  cbn [label score scores raw_score]. split; [reflexivity|].
  split; [|split].
  - intros Hlt. change (flt confidence f0_6 = true) in Hlt.
    rewrite (remap_unsure rawLabel confidence Hlt).
    split; reflexivity.
  - intros Hge.
    assert (flt confidence f0_6 = false) as Hno.
    { destruct Hge as [Hge|Hnan].
      - by apply binary64_reaches_threshold.
      - by apply binary64_nan_fails_threshold. }
    rewrite (remap_confident rawLabel confidence Hno). split; reflexivity.
  - apply binary64_threshold_cases.
Qed.

Lemma X16_witness :
  ∃ r,
    analyze_sentiment (Some hesitant_binary64_model)
      {| text := str_of "bad" |} = Return r ∧
    score r = 0.55%float ∧
    ((0.55 <? 0.6)%float = true →
       label r = "neutral" ∧
       scores r = <["neutral" := (1 - 0.55)%float]>
                    (class_scores "NEGATIVE" 0.55%float)) ∧
    ((0.6 <=? 0.55)%float = true ∨ (0.55 =? 0.55)%float = false →
       label r = class_name "NEGATIVE" ∧
       scores r = class_scores "NEGATIVE" 0.55%float) ∧
    ((0.55 <? 0.6)%float = true
     ∨ (0.6 <=? 0.55)%float = true
     ∨ (0.55 =? 0.55)%float = false).
Proof.
  apply (X16_binary64_threshold hesitant_binary64_model
           {| text := str_of "bad" |} "NEGATIVE" 0.55%float []).
  - reflexivity.
  - reflexivity.
Defined.
